(** * Marketing campaign dashboard: the metrics-aggregation core of app.py

    A shallow embedding of the aggregations that [app.py] runs over its
    data frame: the sidebar options and filter (lines 16-20), the KPI block
    (31-38), the funnel dictionary (57-63), the daily purchase series
    (77-78), the per-campaign table (92-100), the lollipop charts
    (116-152) and the top locations table (168-175).

    Modelling choices, all taken from the source and from pandas:
    - a data frame is the list of its rows, in frame order;
    - a cell of [campaign_id], [device_type], [location] or [user_id] is
      missing (an empty cell loads as NaN) or holds a label: a string, or an
      integer when [read_csv] found only digits in the column;
    - a cell of [timestamp] is missing (NaT) or an instant in nanoseconds;
      whether the column is a datetime column at all, and its UTC offset,
      is a property of the loaded frame ([ts_dtype]) that filtering keeps;
    - the integer columns ([clicked_ad], [products_viewed], [added_to_cart],
      [purchased]) are [Z]; they hold indicators and small counts, so the
      numpy accumulators of an in-memory frame never leave the int64 range
      and the sums are taken in [Z];
    - float64 values are idealised as rationals ([Q], compared with [==]);
      rounding is not modelled.  What IS modelled is the part of float
      arithmetic the zero guards are about: a numpy/pandas true division by
      zero yields [inf], [-inf] or [nan] instead of raising, so a computed
      ratio is a [num];
    - [groupby] sorts its keys and leaves out the rows whose key is missing
      ([sort=True], [dropna=True]); [count] counts the cells that are not
      missing; [isin] matches a missing cell with a missing value. *)

From Stdlib Require Import List ZArith QArith Qabs Bool Lia.
From Stdlib Require Import Strings.String Strings.Ascii.
From Stdlib Require Import Sorting.Sorted Sorting.Permutation.
From Stdlib Require Import NArith.
Import ListNotations.

Local Open Scope Z_scope.

(** ** Numbers produced by a true division *)

Inductive num : Type :=
  | Finite (q : Q)
  | PosInf
  | NegInf
  | NaN.

(** numpy's [true_divide] on two finite operands. *)
Definition np_div (a b : Q) : num :=
  if Qeq_bool b 0 then
    if Qeq_bool a 0 then NaN
    else if Qle_bool 0 a then PosInf else NegInf
  else Finite (a / b).

(** [x * 100]: multiplication by a positive finite constant. *)
Definition times_100 (x : num) : num :=
  match x with
  | Finite q => Finite (q * 100)
  | other => other
  end.

Definition is_finite (x : num) : Prop :=
  match x with Finite _ => True | _ => False end.

(** Equality of computed numbers, up to the representation of a rational. *)
Definition num_eq (x y : num) : Prop :=
  match x, y with
  | Finite a, Finite b => a == b
  | PosInf, PosInf | NegInf, NegInf | NaN, NaN => True
  | _, _ => False
  end.

(** [x <= y] on the extended line; [nan] compares with nothing. *)
Definition num_le (x y : num) : Prop :=
  match x, y with
  | NaN, _ | _, NaN => False
  | NegInf, _ | _, PosInf => True
  | Finite a, Finite b => (a <= b)%Q
  | _, _ => False
  end.

Definition num_leb (x y : num) : bool :=
  match x, y with
  | NaN, _ | _, NaN => false
  | NegInf, _ | _, PosInf => true
  | Finite a, Finite b => Qle_bool a b
  | _, _ => false
  end.

(** ** Cells and the event record *)

(** The value of a categorical cell. *)
Inductive label : Type :=
  | Str (s : string)
  | Int (z : Z).

Definition label_eqb (a b : label) : bool :=
  match a, b with
  | Str s, Str t => String.eqb s t
  | Int x, Int y => x =? y
  | _, _ => false
  end.

(** Python's order on the values of one column: integers by value,
    strings character by character.  A column never mixes the two; the
    order puts integers first to stay total. *)
Definition label_compare (a b : label) : comparison :=
  match a, b with
  | Int x, Int y => Z.compare x y
  | Str s, Str t => String.compare s t
  | Int _, Str _ => Lt
  | Str _, Int _ => Gt
  end.

(** Equality of two cells as [isin] and [unique] see it: two missing cells
    are the same value. *)
Definition cell_eqb (x y : option label) : bool :=
  match x, y with
  | Some a, Some b => label_eqb a b
  | None, None => true
  | _, _ => false
  end.

Definition present {A : Type} (x : option A) : bool :=
  match x with Some _ => true | None => false end.

Record Row : Type := mkRow {
  user_id : option label;
  timestamp : option Z;
  campaign_id : option label;
  device_type : option label;
  location : option label;
  clicked_ad : Z;
  products_viewed : Z;
  added_to_cart : Z;
  purchased : Z;
  purchase_amount : Q
}.

Definition DataFrame := list Row.

(** The data model on a row: the user is identified, the indicators are
    0 or 1, the counts and the amount not negative. *)
Record valid_row (r : Row) : Prop := {
  vr_user : user_id r <> None;
  vr_clicked : 0 <= clicked_ad r <= 1;
  vr_viewed : 0 <= products_viewed r;
  vr_cart : 0 <= added_to_cart r;
  vr_purchased : 0 <= purchased r <= 1;
  vr_amount : (0 <= purchase_amount r)%Q
}.

(** What a call returns or raises *)
Inductive outcome (A : Type) : Type :=
  | Ok (a : A)
  | KeyError
  | ValueError
  | AttributeError.

Arguments Ok {A} a.
Arguments KeyError {A}.
Arguments ValueError {A}.
Arguments AttributeError {A}.

(** ** Column reductions

    Each reduction runs over the column with an accumulator, as the numpy
    loop does. *)

(** [len(df)] *)
Definition len {A : Type} (df : list A) : Z := Z.of_nat (List.length df).

(** [df[c].sum()] on an integer column *)
Definition col_sum (c : Row -> Z) (df : DataFrame) : Z :=
  fold_left (fun acc r => acc + c r) df 0.

(** [df[c].sum()] on a float column *)
Definition col_sumq (c : Row -> Q) (df : DataFrame) : Q :=
  fold_left (fun acc r => (acc + c r)%Q) df 0%Q.

Definition b2z (b : bool) : Z := if b then 1 else 0.

(** [(df[c] > 0).sum()]: the sum of a boolean column *)
Definition col_count_pos (c : Row -> Z) (df : DataFrame) : Z :=
  fold_left (fun acc r => acc + b2z (0 <? c r)) df 0.

(** [("user_id", "count")]: the number of cells that are not missing *)
Definition col_count (df : DataFrame) : Z :=
  fold_left (fun acc r => acc + b2z (present (user_id r))) df 0.

(** ** Sidebar options and filter (lines 16-20) *)

(** [Series.isin(values)] at one cell *)
Definition isin (x : option label) (values : list (option label)) : bool :=
  existsb (cell_eqb x) values.

(** [Series.unique()]: the distinct values of a column, the missing value
    among them, in order of first appearance. *)
Definition unique (l : list (option label)) : list (option label) :=
  fold_left (fun seen x => if isin x seen then seen else seen ++ [x]) l [].

(** The options of the three multiselect widgets; each widget starts with
    all of its options selected ([default=] is the option list). *)
Definition campaign_options (df : DataFrame) : list (option label) :=
  unique (map campaign_id df).

Definition device_options (df : DataFrame) : list (option label) :=
  unique (map device_type df).

Definition location_options (df : DataFrame) : list (option label) :=
  unique (map location df).

Definition filter_stage (campaign device loc : list (option label))
  (df : DataFrame) : DataFrame :=
  filter (fun r => isin (campaign_id r) campaign
                   && isin (device_type r) device
                   && isin (location r) loc) df.

(** ** KPI block (lines 31-38) *)

Record KpiSet : Type := mkKpi {
  total_users : Z;
  ctr : num;
  conversion_rate : num;
  aov : num
}.

(** Truth value of a Python or numpy integer in a conditional expression *)
Definition truthy (z : Z) : bool := negb (z =? 0).

Definition kpi (df : DataFrame) : KpiSet :=
  let total_users := len df in
  let clicked := col_sum clicked_ad df in
  let purchased := col_sum purchased df in
  let revenue := col_sumq purchase_amount df in
  {| total_users := total_users;
     ctr := if truthy total_users
            then times_100 (np_div (inject_Z clicked) (inject_Z total_users))
            else Finite 0;
     conversion_rate :=
            if truthy total_users
            then times_100 (np_div (inject_Z purchased) (inject_Z total_users))
            else Finite 0;
     aov := if truthy purchased
            then np_div revenue (inject_Z purchased)
            else Finite 0 |}.

(** ** Funnel dictionary (lines 57-63) *)

(** A Python [dict] keeps its keys in insertion order; assigning to a key
    that is already there keeps the key's place. *)
Fixpoint dict_set (k : string) (v : Z) (d : list (string * Z))
  : list (string * Z) :=
  match d with
  | [] => [(k, v)]
  | (k', v') :: d' =>
      if String.eqb k k' then (k', v) :: d' else (k', v') :: dict_set k v d'
  end.

(** A dictionary display [{k1: v1, ..., kn: vn}] *)
Definition dict_display (kvs : list (string * Z)) : list (string * Z) :=
  fold_left (fun d kv => dict_set (fst kv) (snd kv) d) kvs [].

(** [list(funnel.items())], the rows of [funnel_df] *)
Definition funnel (df : DataFrame) : list (string * Z) :=
  dict_display
    [ ("Clicked Ad"%string, col_sum clicked_ad df);
      ("Viewed Product"%string, col_count_pos products_viewed df);
      ("Added to Cart"%string, col_count_pos added_to_cart df);
      ("Purchased"%string, col_sum purchased df) ].

(** ** groupby *)

(** Group keys are sorted ([sort=True] is the default of [DataFrame.groupby]),
    so a key type comes with its comparison. *)
Class OrdKey (K : Type) : Type := { kcmp : K -> K -> comparison }.

(** Dates compare as integers. *)
#[export] Instance OrdKey_Z : OrdKey Z := {| kcmp := Z.compare |}.

#[export] Instance OrdKey_label : OrdKey label :=
  {| kcmp := label_compare |}.

(** What the grouping relies on: the comparison is a strict total order. *)
Class OrdKeyLaws (K : Type) `{OrdKey K} : Prop := {
  kcmp_eq : forall a b : K, kcmp a b = Eq <-> a = b;
  kcmp_antisym : forall a b : K, kcmp a b = CompOpp (kcmp b a);
  kcmp_trans : forall a b c : K,
    kcmp a b = Lt -> kcmp b c = Lt -> kcmp a c = Lt
}.

Definition keqb {K : Type} `{OrdKey K} (a b : K) : bool :=
  match kcmp a b with Eq => true | _ => false end.

(** Files one row under its key: the groups stay in ascending key order
    and each group keeps its rows in frame order. *)
Fixpoint add_row {K : Type} `{OrdKey K} (k : K) (r : Row)
  (gs : list (K * DataFrame)) : list (K * DataFrame) :=
  match gs with
  | [] => [(k, [r])]
  | (k', g) :: rest =>
      match kcmp k k' with
      | Eq => (k', g ++ [r]) :: rest
      | Lt => (k, [r]) :: gs
      | Gt => (k', g) :: add_row k r rest
      end
  end.

(** [df.groupby(key)]: a row whose key is missing is in no group
    ([dropna=True] is the default). *)
Definition groupby {K : Type} `{OrdKey K} (key : Row -> option K)
  (df : DataFrame) : list (K * DataFrame) :=
  fold_left (fun gs r => match key r with
                         | Some k => add_row k r gs
                         | None => gs
                         end) df [].

(** Strictly ascending keys *)
Definition klt {K : Type} `{OrdKey K} (a b : K * DataFrame) : Prop :=
  kcmp (fst a) (fst b) = Lt.

(** The group filed under [k], empty when there is none *)
Fixpoint assoc {K : Type} `{OrdKey K} (k : K) (gs : list (K * DataFrame))
  : DataFrame :=
  match gs with
  | [] => []
  | (k', g) :: rest => if keqb k k' then g else assoc k rest
  end.

(** The rows of [df] whose key is [k] *)
Definition rows_of {K : Type} `{OrdKey K} (key : Row -> option K) (k : K)
  (df : DataFrame) : DataFrame :=
  filter (fun r => match key r with
                   | Some k' => keqb k' k
                   | None => false
                   end) df.

(** ** Daily purchases (lines 77-78) *)

(** The dtype of the [timestamp] column after [read_csv(parse_dates=...)]:
    a datetime column, with the UTC offset of its timezone (0 for a column
    without timezone, whose instants are wall-clock times), or a column
    left as [object] because nothing in it was parsed (a file with a header
    and no row, text that is no date). *)
Inductive ts_dtype : Type :=
  | datetime64 (utc_offset : Z)
  | object_dtype.

Definition ns_per_day : Z := 86400 * 1000000000.

(** [df["timestamp"].dt.date] at one cell of a datetime column: the
    calendar date on the column's wall clock, as the number of days since
    the epoch (floor division, so that instants before the epoch fall on
    the day they belong to); NaT stays missing. *)
Definition date (utc_offset : Z) (r : Row) : option Z :=
  match timestamp r with
  | Some t => Some ((t + utc_offset) / ns_per_day)
  | None => None
  end.

(** Lines 77-78.  The [.dt] accessor raises [AttributeError] on a column
    that is not a datetime column. *)
Definition daily (dtype : ts_dtype) (df : DataFrame)
  : outcome (list (Z * Z)) :=
  match dtype with
  | object_dtype => AttributeError
  | datetime64 utc_offset =>
      Ok (map (fun kg => (fst kg, col_sum purchased (snd kg)))
              (groupby (date utc_offset) df))
  end.

(** ** Campaign table (lines 92-100) *)

Record CampaignRow : Type := mkCampaignRow {
  cp_campaign_id : label;
  users : Z;
  clicks : Z;
  purchases : Z;
  revenue : Q;
  ctr_pct : num;
  conversion_rate_pct : num;
  AOV : num
}.

(** [Series.replace(0, 1)] at one cell *)
Definition replace_0_1 (z : Z) : Z := if z =? 0 then 1 else z.

Definition campaign_agg (kg : label * DataFrame) : CampaignRow :=
  let g := snd kg in
  let users := col_count g in
  let clicks := col_sum clicked_ad g in
  let purchases := col_sum purchased g in
  let revenue := col_sumq purchase_amount g in
  {| cp_campaign_id := fst kg;
     users := users;
     clicks := clicks;
     purchases := purchases;
     revenue := revenue;
     ctr_pct := times_100 (np_div (inject_Z clicks) (inject_Z users));
     conversion_rate_pct :=
       times_100 (np_div (inject_Z purchases) (inject_Z users));
     AOV := np_div revenue (inject_Z (replace_0_1 purchases)) |}.

Definition campaign_perf (df : DataFrame) : list CampaignRow :=
  map campaign_agg (groupby campaign_id df).

(** ** Top locations (lines 168-175) *)

Record LocationRow : Type := mkLocationRow {
  lr_location : label;
  lr_users : Z;
  lr_purchases : Z;
  lr_conversion_rate_pct : num
}.

Definition loc_agg (kg : label * DataFrame) : LocationRow :=
  let g := snd kg in
  let users := col_count g in
  let purchases := col_sum purchased g in
  {| lr_location := fst kg;
     lr_users := users;
     lr_purchases := purchases;
     lr_conversion_rate_pct :=
       times_100 (np_div (inject_Z purchases) (inject_Z users)) |}.

(** The grouped table of line 168-172, before it is sorted *)
Definition loc_table (df : DataFrame) : list LocationRow :=
  map loc_agg (groupby location df).

(** [x] may stand before [y] in a column sorted with [ascending=False]:
    the larger value first, [nan] after everything else
    ([na_position="last"]). *)
Definition desc_before (x y : num) : bool :=
  match x, y with
  | _, NaN => true
  | NaN, _ => false
  | _, _ => num_leb y x
  end.

(** [sort_values(col, ascending=False)].  pandas makes no promise on the
    order of equal values; here they keep the order they had. *)
Fixpoint insert_desc {A : Type} (col : A -> num) (x : A) (l : list A)
  : list A :=
  match l with
  | [] => [x]
  | y :: l' =>
      if desc_before (col x) (col y) then x :: l
      else y :: insert_desc col x l'
  end.

Definition sort_values_desc {A : Type} (col : A -> num) (l : list A)
  : list A :=
  fold_right (insert_desc col) [] l.

(** Row [a] may stand before row [b] in a table sorted on [col],
    largest first *)
Definition desc {A : Type} (col : A -> num) (a b : A) : Prop :=
  desc_before (col a) (col b) = true.

(** [.head(n)] *)
Definition head {A : Type} (n : nat) (l : list A) : list A := firstn n l.

Definition loc_df_n (n : nat) (df : DataFrame) : list LocationRow :=
  head n (sort_values_desc lr_conversion_rate_pct (loc_table df)).

Definition top_n : nat := 15.

Definition loc_df (df : DataFrame) : list LocationRow := loc_df_n top_n df.

(** ** Lollipop charts (lines 116-152) *)

(** [x] may stand before [y] in a column sorted with [ascending=True]:
    the smaller value first, [nan] after everything else. *)
Definition asc_before (x y : num) : bool :=
  match x, y with
  | _, NaN => true
  | NaN, _ => false
  | _, _ => num_leb x y
  end.

Fixpoint insert_by {A : Type} (before : A -> A -> bool) (x : A) (l : list A)
  : list A :=
  match l with
  | [] => [x]
  | y :: l' => if before x y then x :: l else y :: insert_by before x l'
  end.

Definition sort_by {A : Type} (before : A -> A -> bool) (l : list A)
  : list A :=
  fold_right (insert_by before) [] l.

(** [sort_values(col, ascending=True)]; equal values keep their order. *)
Definition sort_values_asc {A : Type} (col : A -> num) (l : list A)
  : list A :=
  sort_by (fun a b => asc_before (col a) (col b)) l.

Definition label_leb (a b : label) : bool :=
  match label_compare a b with Gt => false | _ => true end.

(** The numeric columns of the campaign table, under the names that lines
    92-100 give them.  The integer columns are read as numbers. *)
Definition campaign_columns : list (string * (CampaignRow -> num)) :=
  [ ("users"%string, fun e => Finite (inject_Z (users e)));
    ("clicks"%string, fun e => Finite (inject_Z (clicks e)));
    ("purchases"%string, fun e => Finite (inject_Z (purchases e)));
    ("revenue"%string, fun e => Finite (revenue e));
    ("CTR (%)"%string, ctr_pct);
    ("Conversion Rate (%)"%string, conversion_rate_pct);
    ("AOV"%string, AOV) ].

Fixpoint lookup_column {V : Type} (name : string) (cols : list (string * V))
  : option V :=
  match cols with
  | [] => None
  | (n, v) :: rest => if String.eqb name n then Some v else lookup_column name rest
  end.

Definition numeric_column (metric : string) : option (CampaignRow -> num) :=
  lookup_column metric campaign_columns.

(** The campaign ids as the numbers that [:.2f] formats: integer ids are
    formatted, a string id is refused. *)
Fixpoint id_numbers (ids : list label) : option (list num) :=
  match ids with
  | [] => Some []
  | Int z :: rest =>
      match id_numbers rest with
      | Some xs => Some (Finite (inject_Z z) :: xs)
      | None => None
      end
  | Str _ :: _ => None
  end.

(** [go.Scatter(...)]: an argument that is not passed is [None]. *)
Record Scatter : Type := mkScatter {
  sc_x : list num;
  sc_y : list label;
  sc_mode : string;
  sc_marker : option (string * Z);
  sc_text : option (list string);
  sc_textposition : option string;
  sc_name : option string;
  sc_line : option (string * Z);
  sc_showlegend : option bool
}.

Record Layout : Type := mkLayout {
  ly_title : string;
  ly_xaxis_title : string;
  ly_yaxis_title : string;
  ly_yaxis_tickmode : string;
  ly_height : Z
}.

Record Figure : Type := mkFigure {
  fig_data : list Scatter;
  fig_layout : Layout
}.

Definition figure_of (xs : list num) (ys : list label) (texts : list string)
  (metric title color : string) : Figure :=
  {| fig_data :=
       [ {| sc_x := xs; sc_y := ys; sc_mode := "markers+text";
            sc_marker := Some (color, 10); sc_text := Some texts;
            sc_textposition := Some "middle right"%string;
            sc_name := Some metric; sc_line := None;
            sc_showlegend := None |};
         {| sc_x := xs; sc_y := ys; sc_mode := "lines";
            sc_marker := None; sc_text := None; sc_textposition := None;
            sc_name := None; sc_line := Some (color, 1);
            sc_showlegend := Some false |} ];
     fig_layout :=
       {| ly_title := title; ly_xaxis_title := metric;
          ly_yaxis_title := "Campaign ID"; ly_yaxis_tickmode := "linear";
          ly_height := 400 |} |}.

(** [lollipop_chart(df, metric, title, color)] on a campaign table.
    [fmt] is the float formatting [f"{v:.2f}"], which this development does
    not compute.  [sort_values] raises [KeyError] for a name that is not a
    column.  The column [campaign_id] can be sorted on as well; its values
    are then the ones to format, which [:.2f] does for integer ids and
    refuses with [ValueError] for a string. *)
Definition lollipop_chart (fmt : num -> string) (df : list CampaignRow)
  (metric title color : string) : outcome Figure :=
  if String.eqb metric "campaign_id" then
    let df_sorted :=
      sort_by (fun a b => label_leb (cp_campaign_id a) (cp_campaign_id b)) df in
    match id_numbers (map cp_campaign_id df_sorted) with
    | Some xs =>
        Ok (figure_of xs (map cp_campaign_id df_sorted) (map fmt xs)
                      metric title color)
    | None => ValueError
    end
  else
    match numeric_column metric with
    | None => KeyError
    | Some col =>
        let df_sorted := sort_values_asc col df in
        Ok (figure_of (map col df_sorted) (map cp_campaign_id df_sorted)
                      (map (fun e => fmt (col e)) df_sorted)
                      metric title color)
    end.

(** The four charts of lines 149-152 *)
Definition highlight_charts (fmt : num -> string) (df : DataFrame)
  : list (outcome Figure) :=
  let campaign_perf := campaign_perf df in
  [ lollipop_chart fmt campaign_perf "CTR (%)"
      "Click-Through Rate by Campaign" "#636EFA";
    lollipop_chart fmt campaign_perf "Conversion Rate (%)"
      "Conversion Rate by Campaign" "#00CC96";
    lollipop_chart fmt campaign_perf "users"
      "Number of Users by Campaign" "#EF553B";
    lollipop_chart fmt campaign_perf "clicks"
      "Number of Clicks by Campaign" "#AB63FA" ].

(** ** The words of the specification

    Sums, counts, groups and formulas written from the words of the
    specification, without any of the definitions above, to be compared
    with what the code computes. *)

(** The sum of column [c] over the rows *)
Fixpoint spec_sum (c : Row -> Z) (rows : list Row) : Z :=
  match rows with
  | [] => 0
  | r :: rest => c r + spec_sum c rest
  end.

Fixpoint spec_sumq (c : Row -> Q) (rows : list Row) : Q :=
  match rows with
  | [] => 0%Q
  | r :: rest => (c r + spec_sumq c rest)%Q
  end.

(** The number of rows that satisfy [p] *)
Definition spec_count (p : Row -> bool) (rows : list Row) : Z :=
  Z.of_nat (List.length (filter p rows)).

(** 100 x s / n *)
Definition spec_pct (s n : Z) : Q := 100 * inject_Z s / inject_Z n.

(** 100 x s / n, defined as 0 when n = 0 *)
Definition spec_guarded_pct (s n : Z) : Q :=
  if n =? 0 then 0%Q else spec_pct s n.

(** rev / p, defined as 0 when p = 0 *)
Definition spec_guarded_aov (rev : Q) (p : Z) : Q :=
  if p =? 0 then 0%Q else (rev / inject_Z p)%Q.

(** rev / max(p, 1) *)
Definition spec_floored_aov (rev : Q) (p : Z) : Q :=
  (rev / inject_Z (Z.max p 1))%Q.

Definition label_dec (a b : label) : {a = b} + {a <> b}.
Proof. decide equality; [apply string_dec | apply Z.eq_dec]. Defined.

Definition cell_dec (x y : option label) : {x = y} + {x <> y}.
Proof. decide equality. apply label_dec. Defined.

(** A row passes the filter: each of its three dimensions is a member of
    the corresponding allowed set. *)
Definition spec_allowed (campaign device loc : list (option label))
  (r : Row) : Prop :=
  In (campaign_id r) campaign /\ In (device_type r) device
  /\ In (location r) loc.

Definition spec_allowed_dec (campaign device loc : list (option label))
  (r : Row)
  : {spec_allowed campaign device loc r} + {~ spec_allowed campaign device loc r}.
Proof.
  unfold spec_allowed.
  destruct (in_dec cell_dec (campaign_id r) campaign);
  destruct (in_dec cell_dec (device_type r) device);
  destruct (in_dec cell_dec (location r) loc); tauto.
Defined.

(** The row carries a [user_id] *)
Definition has_user (r : Row) : bool :=
  match user_id r with Some _ => true | None => false end.

(** The row carries a [campaign_id], a [location], a [timestamp] *)
Definition has_campaign (r : Row) : bool :=
  match campaign_id r with Some _ => true | None => false end.

Definition has_location (r : Row) : bool :=
  match location r with Some _ => true | None => false end.

Definition has_timestamp (r : Row) : bool :=
  match timestamp r with Some _ => true | None => false end.

(** The rows of a campaign and of a location *)
Definition campaign_group (v : label) (df : DataFrame) : DataFrame :=
  filter (fun r => if cell_dec (campaign_id r) (Some v) then true else false)
         df.

Definition location_group (v : label) (df : DataFrame) : DataFrame :=
  filter (fun r => if cell_dec (location r) (Some v) then true else false) df.

(** The row's timestamp, moved by [utc_offset] to the wall clock of the
    column, falls on calendar day [d] (days since the epoch, of
    86,400,000,000,000 nanoseconds each). *)
Definition in_day (utc_offset d : Z) (r : Row) : bool :=
  match timestamp r with
  | Some t => (d * 86400000000000 <=? t + utc_offset)
              && (t + utc_offset <? (d + 1) * 86400000000000)
  | None => false
  end.

(** The values of the cells that are not missing *)
Fixpoint somes {A : Type} (l : list (option A)) : list A :=
  match l with
  | [] => []
  | Some a :: rest => a :: somes rest
  | None :: rest => somes rest
  end.

(** The distinct locations present in [df] *)
Definition distinct_locations (df : DataFrame) : list label :=
  nodup label_dec (somes (map location df)).

(** Every row carries a [user_id]. *)
Definition has_user_ids (df : DataFrame) : Prop :=
  Forall (fun r => user_id r <> None) df.

(** Sum of an integer column of a result table *)
Definition table_sum {A : Type} (c : A -> Z) (t : list A) : Z :=
  fold_right Z.add 0 (map c t).

(** ** Sample frames *)

Definition str (s : string) : option label := Some (Str s).

(** Midnight of 2024-01-01, in nanoseconds since the epoch *)
Definition jan_1_2024 : Z := 19723 * ns_per_day.

(** Four events: two purchases on 2024-01-01, one purchase and one visit
    on 2024-01-03, nothing on 2024-01-02.  The visit of campaign C3 has an
    amount of 15 and no purchase. *)
Definition sample_df : DataFrame :=
  [ mkRow (str "u1") (Some (jan_1_2024 + 3600000000000))
      (str "C1") (str "mobile") (str "Dhaka") 1 3 1 1 50;
    mkRow (str "u2") (Some (jan_1_2024 + 7200000000000))
      (str "C1") (str "desktop") (str "Sylhet") 1 2 0 1 30;
    mkRow (str "u3") (Some (jan_1_2024 + 2 * ns_per_day + 1))
      (str "C2") (str "mobile") (str "Dhaka") 0 0 1 1 20;
    mkRow (str "u1") (Some (jan_1_2024 + 3 * ns_per_day - 1))
      (str "C3") (str "tablet") (str "Khulna") 1 1 0 0 15 ].

(** The entry of campaign C1 in the campaign table of the sample frame *)
Definition sample_entry : CampaignRow :=
  campaign_agg (Str "C1", campaign_group (Str "C1") sample_df).

(** A visit that bought nothing, with or without a click *)
Definition visit (clicked : Z) : Row :=
  mkRow (str "v") (Some jan_1_2024) (str "C1") (str "mobile")
    (str "Dhaka") clicked 0 0 0 0.

(** Ten rows, four of them with a click, two of them with a purchase, of
    50 and of 30. *)
Definition ten_rows : DataFrame :=
  [ mkRow (str "a") (Some jan_1_2024) (str "C1") (str "mobile")
      (str "Dhaka") 1 1 1 1 50;
    mkRow (str "b") (Some jan_1_2024) (str "C2") (str "mobile")
      (str "Dhaka") 1 1 1 1 30;
    visit 1; visit 1; visit 0; visit 0; visit 0; visit 0; visit 0; visit 0 ].

(** Three events with missing cells: the first has no [user_id], the
    third no [campaign_id]. *)
Definition missing_cells_df : DataFrame :=
  [ mkRow None (Some jan_1_2024) (str "C1") (str "mobile") (str "Dhaka")
      1 0 0 0 0;
    mkRow (str "u2") (Some jan_1_2024) (str "C1") (str "mobile")
      (str "Dhaka") 0 1 1 1 20;
    mkRow (str "u3") (Some jan_1_2024) None (str "mobile") (str "Sylhet")
      1 1 1 1 5 ].

(** One event without [user_id] *)
Definition anonymous_df : DataFrame :=
  [ mkRow None (Some jan_1_2024) (str "C1") (str "mobile") (str "Dhaka")
      1 0 0 0 0 ].

(** One event whose [purchased] cell is -1, with an amount of 10 *)
Definition refund_df : DataFrame :=
  [ mkRow (str "u1") (Some jan_1_2024) (str "C1") (str "mobile")
      (str "Dhaka") 0 0 0 (-1) 10 ].

(** A frame whose campaign ids are integers *)
Definition int_ids_df : DataFrame :=
  [ mkRow (str "u1") (Some jan_1_2024) (Some (Int 10)) (str "mobile")
      (str "Dhaka") 1 0 0 0 0;
    mkRow (str "u2") (Some jan_1_2024) (Some (Int 9)) (str "mobile")
      (str "Dhaka") 0 0 0 1 5 ].

(** * Properties *)

(** ** Cells *)

Lemma label_eqb_eq (a b : label) : label_eqb a b = true <-> a = b.
Proof.
  destruct a as [s|x], b as [t|y]; simpl; try (split; congruence).
  - rewrite String.eqb_eq. split; congruence.
  - rewrite Z.eqb_eq. split; congruence.
Qed.

Lemma cell_eqb_eq (x y : option label) : cell_eqb x y = true <-> x = y.
Proof.
  destruct x as [a|], y as [b|]; simpl; try (split; congruence).
  rewrite label_eqb_eq. split; congruence.
Qed.

Lemma cell_eqb_dec (x y : option label) :
  cell_eqb x y = if cell_dec x y then true else false.
Proof.
  destruct (cell_dec x y) as [Heq | Hne].
  - now apply cell_eqb_eq.
  - apply not_true_is_false. intros Ht. now apply cell_eqb_eq in Ht.
Qed.

Lemma has_user_present (r : Row) : present (user_id r) = has_user r.
Proof. reflexivity. Qed.

(** ** The reductions compute the sums and counts of the specification *)

Lemma fold_left_sum (c : Row -> Z) (df : DataFrame) (acc : Z) :
  fold_left (fun a r => a + c r) df acc = acc + spec_sum c df.
Proof.
  revert acc. induction df as [|r df IH]; intros acc; simpl; [lia|].
  rewrite IH. lia.
Qed.

Lemma col_sum_spec (c : Row -> Z) (df : DataFrame) :
  col_sum c df = spec_sum c df.
Proof. unfold col_sum. now rewrite fold_left_sum. Qed.

Lemma fold_left_sumq (c : Row -> Q) (df : DataFrame) (acc : Q) :
  (fold_left (fun a r => a + c r) df acc == acc + spec_sumq c df)%Q.
Proof.
  revert acc. induction df as [|r df IH]; intros acc; simpl; [ring|].
  rewrite IH. ring.
Qed.

Lemma col_sumq_spec (c : Row -> Q) (df : DataFrame) :
  (col_sumq c df == spec_sumq c df)%Q.
Proof. unfold col_sumq. rewrite fold_left_sumq. ring. Qed.

Lemma fold_left_count (p : Row -> bool) (df : DataFrame) (acc : Z) :
  fold_left (fun a r => a + b2z (p r)) df acc = acc + spec_count p df.
Proof.
  unfold spec_count. revert acc.
  induction df as [|r df IH]; intros acc; simpl; [lia|].
  rewrite IH. destruct (p r); unfold b2z; simpl List.length;
    rewrite ?Nat2Z.inj_succ; lia.
Qed.

Lemma col_count_spec (df : DataFrame) : col_count df = spec_count has_user df.
Proof.
  unfold col_count.
  now rewrite (fold_left_count (fun r => present (user_id r))).
Qed.

Lemma col_count_pos_spec (c : Row -> Z) (df : DataFrame) :
  col_count_pos c df = spec_count (fun r => 0 <? c r) df.
Proof.
  unfold col_count_pos. now rewrite (fold_left_count (fun r => 0 <? c r)).
Qed.

Lemma spec_sum_app (c : Row -> Z) (a b : list Row) :
  spec_sum c (a ++ b) = spec_sum c a + spec_sum c b.
Proof. induction a as [|r a IH]; simpl; lia. Qed.

Lemma spec_count_app (p : Row -> bool) (a b : list Row) :
  spec_count p (a ++ b) = spec_count p a + spec_count p b.
Proof. unfold spec_count. rewrite filter_app, length_app. lia. Qed.

(** ** Arithmetic of computed numbers *)

Lemma Qeq_bool_inject_Z (z : Z) : Qeq_bool (inject_Z z) 0 = (z =? 0).
Proof.
  unfold Qeq_bool. simpl. rewrite Z.mul_1_r.
  destruct z; reflexivity.
Qed.

Lemma np_div_int_nonzero (a : Q) (b : Z) :
  b <> 0 -> np_div a (inject_Z b) = Finite (a / inject_Z b).
Proof.
  intros Hb. unfold np_div. rewrite Qeq_bool_inject_Z.
  apply Z.eqb_neq in Hb. now rewrite Hb.
Qed.

Lemma pct_of_quotient (s n : Z) :
  (inject_Z s / inject_Z n * 100 == spec_pct s n)%Q.
Proof. unfold spec_pct, Qdiv. ring. Qed.

(** ** KPI block *)

(** C1: the KPI block returns the row count as [total_users]; [ctr] is
    100 x sum(clicked_ad) / total_users and [conversion_rate] is
    100 x sum(purchased) / total_users, both 0 on an empty frame; [aov] is
    sum(purchase_amount) / sum(purchased), 0 when nothing was purchased;
    none of the three is [nan] or infinite. *)
Theorem kpi_formulas (df : DataFrame) :
  total_users (kpi df) = Z.of_nat (List.length df)
  /\ num_eq (ctr (kpi df))
       (Finite (spec_guarded_pct (spec_sum clicked_ad df)
                                 (Z.of_nat (List.length df))))
  /\ num_eq (conversion_rate (kpi df))
       (Finite (spec_guarded_pct (spec_sum purchased df)
                                 (Z.of_nat (List.length df))))
  /\ num_eq (aov (kpi df))
       (Finite (spec_guarded_aov (spec_sumq purchase_amount df)
                                 (spec_sum purchased df)))
  /\ is_finite (ctr (kpi df)) /\ is_finite (conversion_rate (kpi df))
  /\ is_finite (aov (kpi df)).
Proof.
  unfold kpi, spec_guarded_pct, spec_guarded_aov, truthy, len; simpl.
  rewrite !col_sum_spec.
  split; [reflexivity|].
  assert (Haov :
    num_eq (if negb (spec_sum purchased df =? 0)
            then np_div (col_sumq purchase_amount df)
                        (inject_Z (spec_sum purchased df))
            else Finite 0)
           (Finite (if spec_sum purchased df =? 0 then 0%Q
                    else (spec_sumq purchase_amount df
                          / inject_Z (spec_sum purchased df))%Q))
    /\ is_finite (if negb (spec_sum purchased df =? 0)
                  then np_div (col_sumq purchase_amount df)
                              (inject_Z (spec_sum purchased df))
                  else Finite 0)).
  { destruct (spec_sum purchased df =? 0) eqn:Hp; simpl.
    - split; [reflexivity | exact I].
    - apply Z.eqb_neq in Hp. rewrite (np_div_int_nonzero _ _ Hp). simpl.
      split; [|exact I]. now rewrite col_sumq_spec. }
  destruct Haov as [Haov Hfin].
  destruct (Z.of_nat (List.length df) =? 0) eqn:Hn; simpl.
  - repeat split; try reflexivity; assumption.
  - apply Z.eqb_neq in Hn. rewrite !(np_div_int_nonzero _ _ Hn). simpl.
    repeat split; try apply pct_of_quotient; assumption.
Qed.

(** ** Sidebar filter *)

Lemma isin_In (x : option label) (values : list (option label)) :
  isin x values = true <-> In x values.
Proof.
  unfold isin. rewrite existsb_exists. split.
  - intros [y [Hy Heq]]. apply cell_eqb_eq in Heq. now subst.
  - intros Hx. exists x. split; [assumption | now apply cell_eqb_eq].
Qed.

Lemma filter_test_allowed (campaign device loc : list (option label))
  (r : Row) :
  isin (campaign_id r) campaign && isin (device_type r) device
    && isin (location r) loc
  = if spec_allowed_dec campaign device loc r then true else false.
Proof.
  destruct (spec_allowed_dec campaign device loc r) as [Ha | Hn].
  - destruct Ha as [H1 [H2 H3]].
    apply isin_In in H1, H2, H3. now rewrite H1, H2, H3.
  - apply not_true_is_false. intros Ht. apply Hn.
    apply andb_prop in Ht. destruct Ht as [Ht H3].
    apply andb_prop in Ht. destruct Ht as [H1 H2].
    unfold spec_allowed. now rewrite <- !isin_In.
Qed.

(** C3: the filter keeps exactly the rows whose campaign id, device type
    and location are each a member of the corresponding allowed set, in
    frame order and as often as they occur; when one of the allowed sets is
    empty, no row passes. *)
Theorem filter_stage_exact (campaign device loc : list (option label))
  (df : DataFrame) :
  filter_stage campaign device loc df
    = filter (fun r => if spec_allowed_dec campaign device loc r
                       then true else false) df
  /\ (forall r, In r (filter_stage campaign device loc df)
        <-> In r df /\ In (campaign_id r) campaign
            /\ In (device_type r) device /\ In (location r) loc)
  /\ filter_stage [] device loc df = []
  /\ filter_stage campaign [] loc df = []
  /\ filter_stage campaign device [] df = [].
Proof.
  unfold filter_stage. split; [|split; [|repeat split]].
  - apply filter_ext. intros r. apply filter_test_allowed.
  - intros r. rewrite filter_In, filter_test_allowed.
    destruct (spec_allowed_dec campaign device loc r) as [Ha | Hn];
      unfold spec_allowed in *; split; intros Hr;
      try tauto; destruct Hr as [_ Hr]; discriminate.
  - induction df as [|r df IH]; simpl; auto.
  - induction df as [|r df IH]; simpl; [reflexivity|].
    now rewrite andb_false_r.
  - induction df as [|r df IH]; simpl; [reflexivity|].
    now rewrite andb_false_r.
Qed.

(** ** Funnel *)

Lemma funnel_items (df : DataFrame) :
  funnel df =
    [ ("Clicked Ad"%string, col_sum clicked_ad df);
      ("Viewed Product"%string, col_count_pos products_viewed df);
      ("Added to Cart"%string, col_count_pos added_to_cart df);
      ("Purchased"%string, col_sum purchased df) ].
Proof. reflexivity. Qed.

(** C4: the funnel is the four pairs Clicked Ad, Viewed Product, Added to
    Cart, Purchased, in that order; the counts are the sum of [clicked_ad],
    the number of rows with [products_viewed > 0], the number of rows with
    [added_to_cart > 0], and the sum of [purchased]. *)
Theorem funnel_four_stages (df : DataFrame) :
  funnel df =
    [ ("Clicked Ad"%string, spec_sum clicked_ad df);
      ("Viewed Product"%string,
       Z.of_nat (List.length (filter (fun r => 0 <? products_viewed r) df)));
      ("Added to Cart"%string,
       Z.of_nat (List.length (filter (fun r => 0 <? added_to_cart r) df)));
      ("Purchased"%string, spec_sum purchased df) ].
Proof.
  rewrite funnel_items, !col_sum_spec, !col_count_pos_spec. reflexivity.
Qed.

(** C5: the funnel stages are independent counts; a frame exists in which
    a later stage (Added to Cart) counts strictly more rows than an earlier
    one (Clicked Ad).  Any single row that was added to a cart without a
    click is such a frame: Added to Cart is 1 and Clicked Ad is 0. *)
Theorem funnel_not_monotone :
  (exists (df : DataFrame) (clicked added : Z),
     nth_error (funnel df) 0 = Some ("Clicked Ad"%string, clicked)
     /\ nth_error (funnel df) 2 = Some ("Added to Cart"%string, added)
     /\ clicked < added)
  /\ (forall r : Row, clicked_ad r = 0 -> 0 < added_to_cart r ->
        nth_error (funnel [r]) 0 = Some ("Clicked Ad"%string, 0)
        /\ nth_error (funnel [r]) 2 = Some ("Added to Cart"%string, 1)).
Proof.
  assert (Hrow : forall r : Row, clicked_ad r = 0 -> 0 < added_to_cart r ->
            nth_error (funnel [r]) 0 = Some ("Clicked Ad"%string, 0)
            /\ nth_error (funnel [r]) 2 = Some ("Added to Cart"%string, 1)).
  { intros r Hc Ha. unfold funnel, col_sum, col_count_pos. simpl.
    apply Z.ltb_lt in Ha. rewrite Hc, Ha. split; reflexivity. }
  split; [|exact Hrow].
  exists [visit 0; mkRow (str "u1") (Some jan_1_2024) (str "C1")
            (str "mobile") (str "Dhaka") 0 0 2 0 0], 0, 1.
  repeat split.
Qed.

(** ** Empty frame *)

(** C9: on the empty frame the KPI set is 0, 0, 0, 0, the four funnel
    counts are 0, the campaign table and the location table are empty, and
    the daily series is empty when the timestamp column is a datetime
    column, as it is for an empty selection out of a loaded file.  When the
    frame is empty because the file has no row, the column is not a
    datetime column and line 77 raises [AttributeError] instead. *)
Theorem empty_frame_results :
  kpi [] = mkKpi 0 (Finite 0) (Finite 0) (Finite 0)
  /\ funnel [] = [ ("Clicked Ad"%string, 0); ("Viewed Product"%string, 0);
                   ("Added to Cart"%string, 0); ("Purchased"%string, 0) ]
  /\ campaign_perf [] = []
  /\ (forall n, loc_df_n n [] = []) /\ loc_df [] = []
  /\ (forall utc_offset, daily (datetime64 utc_offset) [] = Ok [])
  /\ daily object_dtype [] = AttributeError.
Proof.
  repeat split. intros n. unfold loc_df_n, head. simpl. now destruct n.
Qed.

(** ** groupby *)

#[export] Instance OrdKeyLaws_Z : OrdKeyLaws Z.
Proof.
  split; simpl.
  - intros a b. apply Z.compare_eq_iff.
  - intros a b. apply Z.compare_antisym.
  - intros a b c. rewrite !Z.compare_lt_iff. lia.
Qed.

Lemma ascii_compare_refl (a : ascii) : Ascii.compare a a = Eq.
Proof. unfold Ascii.compare. apply N.compare_refl. Qed.

Lemma ascii_compare_trans (a b c : ascii) :
  Ascii.compare a b = Lt -> Ascii.compare b c = Lt -> Ascii.compare a c = Lt.
Proof.
  unfold Ascii.compare. rewrite !N.compare_lt_iff. apply N.lt_trans.
Qed.

Lemma string_compare_refl (s : string) : String.compare s s = Eq.
Proof.
  induction s as [|a s IH]; simpl; [reflexivity|].
  now rewrite ascii_compare_refl.
Qed.

Lemma string_compare_trans (s1 s2 s3 : string) :
  String.compare s1 s2 = Lt -> String.compare s2 s3 = Lt ->
  String.compare s1 s3 = Lt.
Proof.
  revert s2 s3.
  induction s1 as [|a s1 IH]; intros [|b s2] [|c s3]; simpl;
    try discriminate; try reflexivity.
  destruct (Ascii.compare a b) eqn:Hab; try discriminate;
    destruct (Ascii.compare b c) eqn:Hbc; try discriminate; intros H1 H2.
  - apply Ascii.compare_eq_iff in Hab, Hbc. subst.
    rewrite ascii_compare_refl. eauto.
  - apply Ascii.compare_eq_iff in Hab. subst. now rewrite Hbc.
  - apply Ascii.compare_eq_iff in Hbc. subst. now rewrite Hab.
  - now rewrite (ascii_compare_trans _ _ _ Hab Hbc).
Qed.

#[export] Instance OrdKeyLaws_label : OrdKeyLaws label.
Proof.
  split; simpl.
  - intros [s|x] [t|y]; simpl; try (split; congruence).
    + split.
      * intros Hc. apply String.compare_eq_iff in Hc. congruence.
      * intros Heq. inversion Heq. apply string_compare_refl.
    + rewrite Z.compare_eq_iff. split; congruence.
  - intros [s|x] [t|y]; simpl; try reflexivity.
    + apply String.compare_antisym.
    + apply Z.compare_antisym.
  - intros [s|x] [t|y] [u|z]; simpl; try discriminate; try reflexivity.
    + apply string_compare_trans.
    + rewrite !Z.compare_lt_iff. lia.
Qed.

Section GroupByFacts.
Context {K : Type} `{OrdKeyLaws K}.
Variable key : Row -> option K.

Lemma keqb_eq (a b : K) : keqb a b = true <-> a = b.
Proof.
  unfold keqb. rewrite <- kcmp_eq.
  destruct (kcmp a b); split; congruence.
Qed.

Lemma keqb_refl (a : K) : keqb a a = true.
Proof. now apply keqb_eq. Qed.

Lemma keqb_sym (a b : K) : keqb a b = keqb b a.
Proof.
  unfold keqb. rewrite (kcmp_antisym a b). now destruct (kcmp b a).
Qed.

Lemma kcmp_lt_neq (a b : K) : kcmp a b = Lt -> keqb b a = false.
Proof.
  intros Hlt. unfold keqb. rewrite kcmp_antisym, Hlt. reflexivity.
Qed.

Lemma klt_trans : Relations_1.Transitive klt.
Proof. intros a b c. unfold klt. apply kcmp_trans. Qed.

Lemma groupby_snoc (df : DataFrame) (r : Row) :
  groupby key (df ++ [r])
  = match key r with
    | Some k => add_row k r (groupby key df)
    | None => groupby key df
    end.
Proof. unfold groupby. now rewrite fold_left_app. Qed.

Lemma add_row_keys (k k0 : K) (r : Row) (gs : list (K * DataFrame)) :
  In k0 (map fst (add_row k r gs)) <-> k0 = k \/ In k0 (map fst gs).
Proof.
  induction gs as [|[k' g] rest IH]; simpl.
  - intuition congruence.
  - destruct (kcmp k k') eqn:Hc; simpl.
    + apply kcmp_eq in Hc. subst. intuition congruence.
    + intuition congruence.
    + rewrite IH. intuition congruence.
Qed.

Lemma add_row_HdRel (a : K * DataFrame) (k : K) (r : Row)
  (gs : list (K * DataFrame)) :
  HdRel klt a gs -> kcmp (fst a) k = Lt -> HdRel klt a (add_row k r gs).
Proof.
  intros Hhd Hlt. destruct gs as [|[k' g] rest]; simpl.
  - constructor. exact Hlt.
  - inversion Hhd as [|b l Hab]; subst.
    destruct (kcmp k k'); constructor; assumption.
Qed.

Lemma add_row_sorted (k : K) (r : Row) (gs : list (K * DataFrame)) :
  Sorted klt gs -> Sorted klt (add_row k r gs).
Proof.
  induction gs as [|[k' g] rest IH]; simpl; intros Hs.
  - repeat constructor.
  - inversion Hs as [|a l Hrest Hhd]; subst.
    destruct (kcmp k k') eqn:Hc.
    + constructor; [assumption|].
      destruct rest as [|b rest']; constructor.
      inversion Hhd; subst. assumption.
    + constructor; [assumption|]. constructor. exact Hc.
    + constructor; [now apply IH|].
      apply add_row_HdRel; [assumption|]. simpl.
      rewrite kcmp_antisym, Hc. reflexivity.
Qed.

Lemma groupby_sorted (df : DataFrame) : StronglySorted klt (groupby key df).
Proof.
  apply Sorted_StronglySorted; [exact klt_trans|].
  induction df as [|r df IH] using rev_ind.
  - constructor.
  - rewrite groupby_snoc. destruct (key r); [|assumption].
    now apply add_row_sorted.
Qed.

Lemma assoc_above (k : K) (gs : list (K * DataFrame)) :
  Forall (fun kg => kcmp k (fst kg) = Lt) gs -> assoc k gs = [].
Proof.
  induction 1 as [|[k' g] rest Hlt _ IH]; simpl; [reflexivity|].
  simpl in Hlt. unfold keqb. now rewrite Hlt.
Qed.

Lemma assoc_add_row (k k0 : K) (r : Row) (gs : list (K * DataFrame)) :
  StronglySorted klt gs ->
  assoc k0 (add_row k r gs)
    = if keqb k0 k then assoc k0 gs ++ [r] else assoc k0 gs.
Proof.
  induction gs as [|[k' g] rest IH]; simpl; intros Hs.
  - now destruct (keqb k0 k).
  - apply StronglySorted_inv in Hs. destruct Hs as [Hrest Hall].
    destruct (kcmp k k') eqn:Hc; simpl.
    + apply kcmp_eq in Hc. subst k'.
      destruct (keqb k0 k); reflexivity.
    + destruct (keqb k0 k) eqn:Hk0; [|reflexivity].
      apply keqb_eq in Hk0. subst k0.
      rewrite (keqb_sym k k'), (kcmp_lt_neq _ _ Hc).
      rewrite assoc_above; [reflexivity|].
      eapply Forall_impl; [|exact Hall].
      intros kg Hlt. unfold klt in Hlt. simpl in Hlt.
      now apply kcmp_trans with k'.
    + destruct (keqb k0 k') eqn:Hk0.
      * apply keqb_eq in Hk0. subst k0.
        assert (Hne : keqb k' k = false).
        { unfold keqb. rewrite kcmp_antisym, Hc. reflexivity. }
        now rewrite Hne.
      * now apply IH.
Qed.

Lemma assoc_groupby (k : K) (df : DataFrame) :
  assoc k (groupby key df) = rows_of key k df.
Proof.
  induction df as [|r df IH] using rev_ind; [reflexivity|].
  rewrite groupby_snoc. unfold rows_of in *. rewrite filter_app. simpl.
  destruct (key r) as [k'|].
  - rewrite assoc_add_row by apply groupby_sorted. rewrite IH.
    rewrite (keqb_sym k k').
    destruct (keqb k' k); [reflexivity | now rewrite app_nil_r].
  - now rewrite IH, app_nil_r.
Qed.

Lemma assoc_In (k : K) (g : DataFrame) (gs : list (K * DataFrame)) :
  StronglySorted klt gs -> In (k, g) gs -> assoc k gs = g.
Proof.
  induction gs as [|[k' g'] rest IH]; simpl; intros Hs Hin; [contradiction|].
  apply StronglySorted_inv in Hs. destruct Hs as [Hrest Hall].
  destruct Hin as [Heq | Hin].
  - inversion Heq; subst. now rewrite keqb_refl.
  - rewrite Forall_forall in Hall. specialize (Hall _ Hin).
    unfold klt in Hall. simpl in Hall.
    rewrite (kcmp_lt_neq _ _ Hall). now apply IH.
Qed.

Lemma groupby_keys (k : K) (df : DataFrame) :
  In k (map fst (groupby key df)) <-> In (Some k) (map key df).
Proof.
  induction df as [|r df IH] using rev_ind; [reflexivity|].
  rewrite groupby_snoc, map_app, in_app_iff. simpl.
  destruct (key r) as [k'|].
  - rewrite add_row_keys, IH. intuition congruence.
  - rewrite IH. intuition congruence.
Qed.

Lemma rows_of_In (k : K) (r : Row) (df : DataFrame) :
  In r (rows_of key k df) <-> In r df /\ key r = Some k.
Proof.
  unfold rows_of. rewrite filter_In. destruct (key r) as [k'|].
  - rewrite keqb_eq. intuition congruence.
  - intuition congruence.
Qed.

(** Each group of [groupby] holds, in frame order, exactly the rows of
    the frame that carry the group's key, and no group is empty. *)
Lemma groupby_groups (k : K) (g : DataFrame) (df : DataFrame) :
  In (k, g) (groupby key df) -> g = rows_of key k df /\ g <> [].
Proof.
  intros Hin.
  assert (Hg : g = rows_of key k df).
  { rewrite <- assoc_groupby. symmetry.
    apply assoc_In; [apply groupby_sorted | assumption]. }
  split; [assumption|].
  assert (Hk : In (Some k) (map key df)).
  { apply groupby_keys. apply in_map_iff. now exists (k, g). }
  apply in_map_iff in Hk. destruct Hk as [r [Hkr Hr]].
  assert (Hrg : In r g) by (rewrite Hg; now apply rows_of_In).
  intros ->. contradiction.
Qed.

Lemma sorted_keys_NoDup (gs : list (K * DataFrame)) :
  StronglySorted klt gs -> NoDup (map fst gs).
Proof.
  induction 1 as [|[k g] rest Hs IH Hall]; simpl; constructor; [|assumption].
  intros Hin. apply in_map_iff in Hin. destruct Hin as [[k' g'] [Heq Hin]].
  simpl in Heq. subst k'. rewrite Forall_forall in Hall.
  specialize (Hall _ Hin). unfold klt in Hall. simpl in Hall.
  assert (Hrefl : kcmp k k = Eq) by now apply kcmp_eq.
  congruence.
Qed.

Lemma groupby_keys_NoDup (df : DataFrame) : NoDup (map fst (groupby key df)).
Proof. apply sorted_keys_NoDup, groupby_sorted. Qed.

Lemma somes_In {A : Type} (a : A) (l : list (option A)) :
  In a (somes l) <-> In (Some a) l.
Proof.
  induction l as [|[b|] l IH]; simpl; [tauto| |].
  - rewrite IH. intuition congruence.
  - rewrite IH. intuition congruence.
Qed.

(** There are as many groups as distinct keys in the frame. *)
Lemma groupby_length (dec : forall a b : K, {a = b} + {a <> b})
  (df : DataFrame) :
  List.length (groupby key df)
  = List.length (nodup dec (somes (map key df))).
Proof.
  rewrite <- (length_map fst (groupby key df)).
  apply Permutation_length, NoDup_Permutation.
  - apply groupby_keys_NoDup.
  - apply NoDup_nodup.
  - intros k. now rewrite groupby_keys, nodup_In, somes_In.
Qed.

(** A quantity that adds up over the rows of a group adds up, over the
    groups, to its value on the rows of the frame that have a key. *)
Lemma groupby_additive (m : DataFrame -> Z) (df : DataFrame) :
  m [] = 0 -> (forall g r, m (g ++ [r]) = m g + m [r]) ->
  table_sum (fun kg => m (snd kg)) (groupby key df)
  = m (filter (fun r => present (key r)) df).
Proof.
  intros Hnil Hadd.
  induction df as [|r df IH] using rev_ind;
    [unfold table_sum; simpl; now rewrite Hnil|].
  rewrite groupby_snoc, filter_app. simpl.
  destruct (key r) as [k|]; simpl; [|now rewrite app_nil_r].
  rewrite Hadd, <- IH. clear IH.
  generalize (groupby key df) as gs. unfold table_sum.
  induction gs as [|[k' g] rest IHg]; simpl.
  - specialize (Hadd [] r). simpl in Hadd. lia.
  - destruct (kcmp k k'); simpl.
    + rewrite Hadd. lia.
    + specialize (Hadd [] r). simpl in Hadd. lia.
    + rewrite IHg. lia.
Qed.

End GroupByFacts.

(** ** Groups of the three group keys *)

Lemma keqb_label (a b : label) :
  keqb a b = if label_dec a b then true else false.
Proof.
  destruct (label_dec a b) as [Heq | Hne].
  - now apply keqb_eq.
  - apply not_true_is_false. intros Ht. now apply keqb_eq in Ht.
Qed.

Lemma rows_of_cell (c : Row -> option label) (v : label) (df : DataFrame) :
  rows_of c v df
  = filter (fun r => if cell_dec (c r) (Some v) then true else false) df.
Proof.
  unfold rows_of. apply filter_ext. intros r.
  destruct (c r) as [a|].
  - rewrite keqb_label.
    destruct (label_dec a v), (cell_dec (Some a) (Some v)); congruence.
  - destruct (cell_dec None (Some v)); congruence.
Qed.

Lemma rows_of_campaign (v : label) (df : DataFrame) :
  rows_of campaign_id v df = campaign_group v df.
Proof. apply rows_of_cell. Qed.

Lemma rows_of_location (v : label) (df : DataFrame) :
  rows_of location v df = location_group v df.
Proof. apply rows_of_cell. Qed.

Lemma campaign_group_In (v : label) (r : Row) (df : DataFrame) :
  In r (campaign_group v df) <-> In r df /\ campaign_id r = Some v.
Proof.
  unfold campaign_group. rewrite filter_In.
  destruct (cell_dec (campaign_id r) (Some v)); intuition congruence.
Qed.

Lemma date_in_day (utc_offset d : Z) (r : Row) :
  date utc_offset r = Some d <-> in_day utc_offset d r = true.
Proof.
  unfold date, in_day. destruct (timestamp r) as [t|]; [|split; discriminate].
  rewrite andb_true_iff, Z.leb_le, Z.ltb_lt.
  change 86400000000000 with ns_per_day.
  assert (Hpos : 0 < ns_per_day) by reflexivity.
  pose proof (Z.div_mod (t + utc_offset) ns_per_day ltac:(lia)) as Hdm.
  pose proof (Z.mod_pos_bound (t + utc_offset) ns_per_day Hpos) as Hb.
  split.
  - intros Heq. inversion Heq; subst. nia.
  - intros [Hlo Hhi]. f_equal. symmetry.
    apply (Z.div_unique _ _ d (t + utc_offset - ns_per_day * d)); lia.
Qed.

Lemma rows_of_date (utc_offset d : Z) (df : DataFrame) :
  rows_of (date utc_offset) d df = filter (in_day utc_offset d) df.
Proof.
  unfold rows_of. apply filter_ext. intros r.
  destruct (in_day utc_offset d r) eqn:Hin.
  - apply date_in_day in Hin. rewrite Hin. apply keqb_refl.
  - destruct (date utc_offset r) as [d'|] eqn:Hd; [|reflexivity].
    apply not_true_is_false. intros Ht. apply keqb_eq in Ht. subst d'.
    apply date_in_day in Hd. congruence.
Qed.

(** ** Daily purchases *)

Lemma sorted_keys_Z (gs : list (Z * DataFrame)) :
  StronglySorted klt gs -> StronglySorted Z.lt (map fst gs).
Proof.
  induction 1 as [|kg rest Hs IH Hall]; simpl; constructor; [assumption|].
  rewrite Forall_map. eapply Forall_impl; [|exact Hall].
  intros kg'. unfold klt. simpl. apply Z.compare_lt_iff.
Qed.

(** C6: when the timestamp column is a datetime column, the daily series
    has one entry per calendar date (on the wall clock of the column) on
    which the frame has a row, and none for any other date; the entries
    come in strictly ascending date order; the count of an entry is the
    sum of [purchased] over the rows whose timestamp falls on that date.
    When the column is not a datetime column, as in a frame loaded from a
    file without rows, line 77 raises [AttributeError] and there is no
    series. *)
Theorem daily_series (df : DataFrame) :
  (forall utc_offset, exists series,
     daily (datetime64 utc_offset) df = Ok series
     /\ StronglySorted Z.lt (map fst series)
     /\ NoDup (map fst series)
     /\ (forall d, In d (map fst series)
           <-> exists r, In r df /\ in_day utc_offset d r = true)
     /\ (forall d c, In (d, c) series ->
           c = spec_sum purchased (filter (in_day utc_offset d) df)))
  /\ daily object_dtype df = AttributeError
  /\ daily object_dtype [] = AttributeError.
Proof.
  split; [|split; reflexivity]. intros utc_offset.
  eexists. split; [reflexivity|]. rewrite map_map. simpl.
  split; [apply sorted_keys_Z, groupby_sorted|].
  split; [apply groupby_keys_NoDup|].
  split.
  - intros d. rewrite groupby_keys, in_map_iff. split.
    + intros [r [Hd Hr]]. exists r. split; [assumption|].
      now apply date_in_day.
    + intros [r [Hr Hd]]. exists r. split; [|assumption].
      now apply date_in_day.
  - intros d c Hin. apply in_map_iff in Hin.
    destruct Hin as [[d' g] [Heq Hin]]. simpl in Heq.
    inversion Heq; subst. apply groupby_groups in Hin.
    destruct Hin as [Hg _].
    now rewrite col_sum_spec, Hg, rows_of_date.
Qed.

(** ** Campaign table *)

Lemma replace_0_1_nonzero (z : Z) : replace_0_1 z <> 0.
Proof.
  unfold replace_0_1. destruct (z =? 0) eqn:Hz; [lia | now apply Z.eqb_neq].
Qed.

Lemma replace_0_1_max (z : Z) : 0 <= z -> replace_0_1 z = Z.max z 1.
Proof.
  unfold replace_0_1. intros Hz.
  destruct (z =? 0) eqn:Hz0; [apply Z.eqb_eq in Hz0 | apply Z.eqb_neq in Hz0];
    lia.
Qed.

Lemma spec_count_all (p : Row -> bool) (g : list Row) :
  Forall (fun r => p r = true) g -> spec_count p g = Z.of_nat (List.length g).
Proof.
  intros Hall. unfold spec_count. f_equal. f_equal.
  induction Hall as [|r g Hr _ IH]; simpl; [reflexivity|].
  rewrite Hr. now f_equal.
Qed.

Lemma has_user_iff (r : Row) : has_user r = true <-> user_id r <> None.
Proof. unfold has_user. destruct (user_id r); split; congruence. Qed.

Lemma spec_count_nonneg (p : Row -> bool) (g : list Row) : 0 <= spec_count p g.
Proof. unfold spec_count. lia. Qed.

Lemma spec_count_positive (p : Row -> bool) (g : list Row) :
  1 <= spec_count p g <-> exists r, In r g /\ p r = true.
Proof.
  unfold spec_count. split.
  - intros Hpos. destruct (filter p g) as [|r rest] eqn:Hf;
      [simpl in Hpos; lia|].
    exists r. apply filter_In. rewrite Hf. now left.
  - intros [r Hr]. apply filter_In in Hr.
    destruct (filter p g) as [|x rest]; [contradiction|].
    simpl List.length. lia.
Qed.

Lemma spec_count_zero (p : Row -> bool) (g : list Row) :
  spec_count p g = 0 <-> Forall (fun r => p r = false) g.
Proof.
  pose proof (spec_count_positive p g) as Hpos.
  pose proof (spec_count_nonneg p g) as Hnn.
  rewrite Forall_forall. split.
  - intros Hz r Hr. apply not_true_is_false. intros Hp.
    assert (1 <= spec_count p g) by (apply Hpos; now exists r). lia.
  - intros Hall.
    destruct (Z.eq_dec (spec_count p g) 0) as [|Hne]; [assumption|].
    assert (H1 : 1 <= spec_count p g) by lia.
    apply Hpos in H1. destruct H1 as [r [Hr Hp]].
    rewrite (Hall r Hr) in Hp. discriminate.
Qed.

(** An entry of the campaign table is the aggregate of the rows of its
    campaign, of which there is at least one. *)
Lemma campaign_perf_entry (df : DataFrame) (e : CampaignRow) :
  In e (campaign_perf df) ->
  e = campaign_agg (cp_campaign_id e, campaign_group (cp_campaign_id e) df)
  /\ campaign_group (cp_campaign_id e) df <> [].
Proof.
  unfold campaign_perf. intros Hin. apply in_map_iff in Hin.
  destruct Hin as [[k g] [He Hin]]. apply groupby_groups in Hin.
  destruct Hin as [Hg Hne]. rewrite rows_of_campaign in Hg.
  subst e g. simpl. split; [reflexivity | assumption].
Qed.

Lemma campaign_perf_ids (df : DataFrame) :
  map cp_campaign_id (campaign_perf df) = map fst (groupby campaign_id df).
Proof. unfold campaign_perf. rewrite map_map. reflexivity. Qed.

(** The columns of an entry, read off the rows of its campaign. *)
Lemma campaign_entry_columns (df : DataFrame) (e : CampaignRow) :
  In e (campaign_perf df) ->
  users e = spec_count has_user (campaign_group (cp_campaign_id e) df)
  /\ clicks e = spec_sum clicked_ad (campaign_group (cp_campaign_id e) df)
  /\ purchases e = spec_sum purchased (campaign_group (cp_campaign_id e) df)
  /\ (revenue e
      == spec_sumq purchase_amount (campaign_group (cp_campaign_id e) df))%Q
  /\ ctr_pct e
     = times_100 (np_div (inject_Z (clicks e)) (inject_Z (users e)))
  /\ conversion_rate_pct e
     = times_100 (np_div (inject_Z (purchases e)) (inject_Z (users e)))
  /\ AOV e = Finite (revenue e / inject_Z (replace_0_1 (purchases e))).
Proof.
  intros Hin. destruct (campaign_perf_entry df e Hin) as [He _].
  set (g := campaign_group (cp_campaign_id e) df) in *.
  split; [rewrite He at 1; simpl; apply col_count_spec|].
  split; [rewrite He at 1; simpl; apply col_sum_spec|].
  split; [rewrite He at 1; simpl; apply col_sum_spec|].
  split; [rewrite He at 1; simpl; apply col_sumq_spec|].
  split; [rewrite He; reflexivity|].
  split; [rewrite He; reflexivity|].
  rewrite <- (np_div_int_nonzero _ _ (replace_0_1_nonzero (purchases e))).
  rewrite He. reflexivity.
Qed.

Lemma np_div_zero_not_finite (a : Q) :
  ~ is_finite (times_100 (np_div a (inject_Z 0))).
Proof.
  unfold np_div. simpl.
  destruct (Qeq_bool a 0); [|destruct (Qle_bool 0 a)]; simpl; tauto.
Qed.

Lemma pct_finite_iff (a : Q) (n : Z) :
  is_finite (times_100 (np_div a (inject_Z n))) <-> n <> 0.
Proof.
  split.
  - intros Hfin ->. now apply np_div_zero_not_finite in Hfin.
  - intros Hn. rewrite np_div_int_nonzero by assumption. exact I.
Qed.

Lemma pct_value (s n : Z) :
  n <> 0 ->
  num_eq (times_100 (np_div (inject_Z s) (inject_Z n)))
         (Finite (spec_pct s n)).
Proof.
  intros Hn. rewrite np_div_int_nonzero by assumption. simpl.
  apply pct_of_quotient.
Qed.

(** C2 (amended): the campaign table has one entry per campaign id that is
    present in the frame; in an entry, [users] is the number of rows of the
    campaign that carry a [user_id] (the number of its rows when none
    lacks it), [clicks], [purchases] and [revenue] are the sums of
    [clicked_ad], [purchased] and [purchase_amount] over the rows of the
    campaign, [ctr_pct] is 100 x clicks / users and [conversion_rate_pct]
    is 100 x purchases / users when [users] is not 0, and [AOV] is the
    revenue divided by [purchases] with 0 replaced by 1: that is
    revenue / max(purchases, 1) when [purchases] is not negative, and the
    revenue itself when the campaign has no purchase. *)
Theorem campaign_rollup_formulas (df : DataFrame) :
  NoDup (map cp_campaign_id (campaign_perf df))
  /\ (forall v, In v (map cp_campaign_id (campaign_perf df))
                <-> In (Some v) (map campaign_id df))
  /\ forall e, In e (campaign_perf df) ->
       let g := campaign_group (cp_campaign_id e) df in
       g <> []
       /\ users e = Z.of_nat (List.length (filter has_user g))
       /\ (Forall (fun r => user_id r <> None) g ->
           users e = Z.of_nat (List.length g))
       /\ clicks e = spec_sum clicked_ad g
       /\ purchases e = spec_sum purchased g
       /\ (revenue e == spec_sumq purchase_amount g)%Q
       /\ (users e <> 0 ->
           num_eq (ctr_pct e) (Finite (spec_pct (clicks e) (users e)))
           /\ num_eq (conversion_rate_pct e)
                (Finite (spec_pct (purchases e) (users e))))
       /\ num_eq (AOV e)
            (Finite (revenue e
                     / inject_Z (if purchases e =? 0 then 1
                                 else purchases e)))
       /\ (0 <= purchases e ->
           num_eq (AOV e)
             (Finite (spec_floored_aov (revenue e) (purchases e))))
       /\ (purchases e = 0 -> num_eq (AOV e) (Finite (revenue e))).
Proof.
  rewrite campaign_perf_ids. split; [apply groupby_keys_NoDup|].
  split; [intros v; apply groupby_keys|].
  intros e Hin g.
  destruct (campaign_perf_entry df e Hin) as [_ Hne].
  destruct (campaign_entry_columns df e Hin)
    as [Hu [Hc [Hp [Hr [Hctr [Hcr Haov]]]]]].
  fold g in Hne, Hu, Hc, Hp, Hr.
  split; [exact Hne|]. split; [exact Hu|].
  split.
  { intros Hall. rewrite Hu. apply spec_count_all.
    eapply Forall_impl; [|exact Hall]. intros r. apply has_user_iff. }
  split; [exact Hc|]. split; [exact Hp|]. split; [exact Hr|].
  split.
  { intros Hnz. rewrite Hctr, Hcr. split; now apply pct_value. }
  split; [rewrite Haov; simpl; reflexivity|].
  split.
  { intros Hnn. rewrite Haov, replace_0_1_max by assumption. simpl.
    reflexivity. }
  intros H0. rewrite Haov, H0. simpl. unfold Qdiv.
  change (/ inject_Z 1)%Q with 1%Q. apply Qmult_1_r.
Qed.

(** C2, as it was stated, fails on two frames: a campaign with two rows,
    one of them without [user_id], has 1 user; a campaign whose
    [purchased] cells add up to -1 has its revenue divided by -1, not by
    max(-1, 1). *)
Lemma campaign_rollup_counterexample :
  (exists e, In e (campaign_perf missing_cells_df)
     /\ users e
        <> Z.of_nat (List.length
                       (campaign_group (cp_campaign_id e) missing_cells_df)))
  /\ (exists e, In e (campaign_perf refund_df)
     /\ ~ num_eq (AOV e)
            (Finite (spec_floored_aov (revenue e) (purchases e)))).
Proof.
  split.
  - eexists. split; [left; reflexivity|]. vm_compute. discriminate.
  - eexists. split; [left; reflexivity|]. vm_compute. discriminate.
Qed.

(** C10 (amended): every entry of the campaign table stands for at least
    one row, but [users] counts the rows that carry a [user_id]: it is at
    least 1 exactly when the campaign has such a row, and then the two
    unguarded ratios are finite; when it is 0 they are divisions by zero
    and come out as [inf] or [nan].  On a frame in which every row carries
    a [user_id] there is no division by zero. *)
Theorem campaign_rollup_no_zero_division (df : DataFrame) :
  (forall e, In e (campaign_perf df) ->
     campaign_group (cp_campaign_id e) df <> []
     /\ 0 <= users e
     /\ (1 <= users e <->
         exists r, In r (campaign_group (cp_campaign_id e) df)
                   /\ user_id r <> None)
     /\ (1 <= users e ->
         is_finite (ctr_pct e) /\ is_finite (conversion_rate_pct e))
     /\ (users e = 0 ->
         ~ is_finite (ctr_pct e) /\ ~ is_finite (conversion_rate_pct e)))
  /\ (has_user_ids df ->
      forall e, In e (campaign_perf df) ->
        1 <= users e
        /\ is_finite (ctr_pct e) /\ is_finite (conversion_rate_pct e)).
Proof.
  assert (Hentry : forall e, In e (campaign_perf df) ->
     campaign_group (cp_campaign_id e) df <> []
     /\ 0 <= users e
     /\ (1 <= users e <->
         exists r, In r (campaign_group (cp_campaign_id e) df)
                   /\ user_id r <> None)
     /\ (1 <= users e ->
         is_finite (ctr_pct e) /\ is_finite (conversion_rate_pct e))
     /\ (users e = 0 ->
         ~ is_finite (ctr_pct e) /\ ~ is_finite (conversion_rate_pct e))).
  { intros e Hin.
    destruct (campaign_perf_entry df e Hin) as [_ Hne].
    destruct (campaign_entry_columns df e Hin)
      as [Hu [_ [_ [_ [Hctr [Hcr _]]]]]].
    split; [exact Hne|].
    split; [rewrite Hu; apply spec_count_nonneg|].
    split.
    { rewrite Hu, spec_count_positive. split; intros [r [Hr Hp]]; exists r;
        (split; [assumption | now apply has_user_iff]). }
    rewrite Hctr, Hcr, !pct_finite_iff. split; [intros; split; lia|].
    intros H0. split; intros Hnz; now apply Hnz. }
  split; [exact Hentry|].
  intros Hall e Hin. destruct (Hentry e Hin) as [Hne [_ [Hpos [Hfin _]]]].
  assert (H1 : 1 <= users e).
  { apply Hpos. destruct (campaign_group (cp_campaign_id e) df) as [|r g] eqn:Hg;
      [contradiction|].
    exists r. split; [now left|].
    assert (Hr : In r df).
    { apply (campaign_group_In (cp_campaign_id e)). rewrite Hg. now left. }
    unfold has_user_ids in Hall. rewrite Forall_forall in Hall. now apply Hall. }
  split; [exact H1 | now apply Hfin].
Qed.

(** C10, as it was stated, fails on a campaign whose only row has no
    [user_id]: [users] is 0, the click-through rate is 1/0 and the
    conversion rate 0/0. *)
Lemma campaign_rollup_zero_division_counterexample :
  exists e, In e (campaign_perf anonymous_df)
    /\ users e = 0
    /\ ctr_pct e = PosInf /\ conversion_rate_pct e = NaN.
Proof.
  eexists. split; [left; reflexivity|]. repeat split.
Qed.

Lemma NoDup_map_In_inj {A B : Type} (f : A -> B) (l : list A) (a b : A) :
  NoDup (map f l) -> In a l -> In b l -> f a = f b -> a = b.
Proof.
  induction l as [|x l IH]; simpl; intros Hnd Ha Hb Heq; [contradiction|].
  apply NoDup_cons_iff in Hnd. destruct Hnd as [Hx Hnd].
  destruct Ha as [-> | Ha], Hb as [-> | Hb]; auto.
  - exfalso. apply Hx. rewrite Heq. now apply in_map.
  - exfalso. apply Hx. rewrite <- Heq. now apply in_map.
Qed.

Lemma col_count_snoc (g : DataFrame) (r : Row) :
  col_count (g ++ [r]) = col_count g + col_count [r].
Proof. rewrite !col_count_spec. apply spec_count_app. Qed.

Lemma col_sum_snoc (c : Row -> Z) (g : DataFrame) (r : Row) :
  col_sum c (g ++ [r]) = col_sum c g + col_sum c [r].
Proof. rewrite !col_sum_spec. apply spec_sum_app. Qed.

Lemma filter_and {A : Type} (f g : A -> bool) (l : list A) :
  filter g (filter f l) = filter (fun a => f a && g a) l.
Proof.
  induction l as [|a l IH]; simpl; [reflexivity|].
  destruct (f a); simpl; [destruct (g a)|]; now rewrite IH.
Qed.

Lemma table_sum_map {A B : Type} (f : A -> B) (c : B -> Z) (t : list A) :
  table_sum c (map f t) = table_sum (fun a => c (f a)) t.
Proof. unfold table_sum. now rewrite map_map. Qed.

Lemma filter_length_all {A : Type} (f : A -> bool) (l : list A) :
  List.length (filter f l) = List.length l <-> Forall (fun a => f a = true) l.
Proof.
  induction l as [|a l IH]; simpl.
  - split; [constructor | reflexivity].
  - pose proof (filter_length_le f l) as Hle.
    destruct (f a) eqn:Hfa; simpl.
    + rewrite Forall_cons_iff, <- IH. split; [intros; split; [assumption|lia]|].
      intros [_ Hl]. now rewrite Hl.
    + split; [lia|]. intros Hall. inversion Hall; congruence.
Qed.

(** The [users] column of the campaign table adds up to the number of
    rows of the frame that carry a [campaign_id] and a [user_id]. *)
Lemma campaign_users_total (df : DataFrame) :
  table_sum users (campaign_perf df)
  = spec_count (fun r => has_campaign r && has_user r) df.
Proof.
  unfold campaign_perf. rewrite table_sum_map. simpl.
  rewrite (groupby_additive campaign_id col_count df eq_refl col_count_snoc).
  rewrite col_count_spec. unfold spec_count. now rewrite filter_and.
Qed.

(** C8 (amended): the [users] of the campaign table add up to the number
    of rows that carry both a [campaign_id] and a [user_id]; that is at
    most [total_users], the row count, and equal to it exactly when no row
    lacks either cell.  Every row with a [campaign_id] is counted in
    exactly one entry of the table, that of its campaign; a row without
    [campaign_id] is in none. *)
Theorem campaign_users_partition (df : DataFrame) :
  total_users (kpi df) = Z.of_nat (List.length df)
  /\ table_sum users (campaign_perf df)
     = Z.of_nat (List.length
                   (filter (fun r => has_campaign r && has_user r) df))
  /\ table_sum users (campaign_perf df) <= total_users (kpi df)
  /\ (table_sum users (campaign_perf df) = total_users (kpi df)
      <-> Forall (fun r => campaign_id r <> None /\ user_id r <> None) df)
  /\ (forall r, In r df -> campaign_id r <> None ->
        exists e, In e (campaign_perf df)
          /\ In r (campaign_group (cp_campaign_id e) df)
          /\ forall e', In e' (campaign_perf df) ->
               In r (campaign_group (cp_campaign_id e') df) -> e' = e)
  /\ (forall r, campaign_id r = None ->
        forall e, In e (campaign_perf df) ->
          ~ In r (campaign_group (cp_campaign_id e) df)).
Proof.
  split; [reflexivity|].
  rewrite campaign_users_total. unfold spec_count, kpi, len. simpl.
  pose proof (filter_length_le (fun r => has_campaign r && has_user r) df)
    as Hle.
  split; [reflexivity|]. split; [lia|]. split.
  { rewrite Nat2Z.inj_iff, filter_length_all. split; apply Forall_impl;
      intros r; unfold has_campaign, has_user;
      destruct (campaign_id r), (user_id r); simpl;
      intuition congruence. }
  split.
  - intros r Hr Hc.
    destruct (campaign_id r) as [v|] eqn:Hv; [|congruence].
    assert (Hk : In v (map cp_campaign_id (campaign_perf df))).
    { rewrite campaign_perf_ids. apply groupby_keys. rewrite <- Hv.
      now apply in_map. }
    apply in_map_iff in Hk. destruct Hk as [e [Hid He]].
    exists e. split; [assumption|]. split.
    + apply campaign_group_In. split; [assumption | congruence].
    + intros e' He' Hr'. apply campaign_group_In in Hr'.
      destruct Hr' as [_ Heq].
      apply (NoDup_map_In_inj cp_campaign_id (campaign_perf df)); auto.
      * rewrite campaign_perf_ids. apply groupby_keys_NoDup.
      * congruence.
  - intros r Hnone e He Hr. apply campaign_group_In in Hr.
    destruct Hr as [_ Heq]. congruence.
Qed.

(** C8, as it was stated, fails on a frame of three rows of which one has
    no [user_id] and one no [campaign_id]: the [users] add up to 1 and
    [total_users] is 3. *)
Lemma campaign_users_partition_counterexample :
  table_sum users (campaign_perf missing_cells_df) = 1
  /\ total_users (kpi missing_cells_df) = 3
  /\ table_sum users (campaign_perf missing_cells_df)
     <> total_users (kpi missing_cells_df).
Proof. repeat split. discriminate. Qed.

(** ** Sorting a table by a column, largest first *)

Lemma num_leb_le (x y : num) : num_leb x y = true -> num_le x y.
Proof.
  destruct x as [a| | |], y as [b| | |]; simpl; try discriminate; auto.
  apply Qle_bool_iff.
Qed.

Lemma num_leb_trans (x y z : num) :
  num_leb x y = true -> num_leb y z = true -> num_leb x z = true.
Proof.
  destruct x as [a| | |], y as [b| | |], z as [c| | |]; simpl;
    try discriminate; try reflexivity.
  rewrite !Qle_bool_iff. apply Qle_trans.
Qed.

Lemma num_leb_total (x y : num) :
  x <> NaN -> y <> NaN -> num_leb x y = false -> num_leb y x = true.
Proof.
  destruct x as [a| | |], y as [b| | |]; simpl;
    try discriminate; try reflexivity; try congruence.
  intros _ _ Hab. apply Qle_bool_iff.
  destruct (Qlt_le_dec b a) as [Hlt | Hle].
  - now apply Qlt_le_weak.
  - apply Qle_bool_iff in Hle. congruence.
Qed.

Lemma desc_before_total (x y : num) :
  desc_before x y = false -> desc_before y x = true.
Proof.
  destruct x as [a| | |], y as [b| | |]; simpl;
    try discriminate; try reflexivity.
  intros Hab.
  apply (num_leb_total (Finite b) (Finite a)); [discriminate | discriminate |].
  exact Hab.
Qed.

Lemma desc_before_trans (x y z : num) :
  desc_before x y = true -> desc_before y z = true -> desc_before x z = true.
Proof.
  destruct x as [a| | |], y as [b| | |], z as [c| | |]; simpl;
    try discriminate; try reflexivity.
  rewrite !Qle_bool_iff. intros Hba Hcb. now apply Qle_trans with b.
Qed.


Lemma desc_before_le (x y : num) :
  desc_before x y = true -> y = NaN \/ num_le y x.
Proof.
  destruct x as [a| | |], y as [b| | |]; simpl;
    try discriminate; auto.
  rewrite Qle_bool_iff. auto.
Qed.

Section SortFacts.
Context {A : Type}.
Variable col : A -> num.

Lemma desc_trans : Relations_1.Transitive (desc col).
Proof. intros a b c. unfold desc. apply desc_before_trans. Qed.

Lemma insert_desc_perm (x : A) (l : list A) :
  Permutation (insert_desc col x l) (x :: l).
Proof.
  induction l as [|y l IH]; simpl; [apply Permutation_refl|].
  destruct (desc_before (col x) (col y)); [apply Permutation_refl|].
  rewrite IH. apply perm_swap.
Qed.

Lemma sort_values_desc_perm (l : list A) :
  Permutation (sort_values_desc col l) l.
Proof.
  induction l as [|x l IH]; simpl; [constructor|].
  rewrite insert_desc_perm. now constructor.
Qed.

Lemma insert_desc_sorted (x : A) (l : list A) :
  Sorted (desc col) l -> Sorted (desc col) (insert_desc col x l).
Proof.
  induction l as [|y l IH]; simpl; intros Hs.
  - repeat constructor.
  - destruct (desc_before (col x) (col y)) eqn:Hxy.
    + constructor; [assumption|]. constructor. exact Hxy.
    + inversion Hs as [|a l' Hl Hhd]; subst.
      constructor; [now apply IH|].
      assert (Hyx : desc col y x) by now apply desc_before_total.
      destruct l as [|z l]; simpl; [now constructor|].
      inversion Hhd; subst.
      destruct (desc_before (col x) (col z)); now constructor.
Qed.

Lemma sort_values_desc_sorted (l : list A) :
  StronglySorted (desc col) (sort_values_desc col l).
Proof.
  apply Sorted_StronglySorted; [exact desc_trans|].
  induction l as [|x l IH]; simpl; [constructor|].
  now apply insert_desc_sorted.
Qed.

Lemma StronglySorted_app_inv (R : A -> A -> Prop) (l1 l2 : list A) :
  StronglySorted R (l1 ++ l2) ->
  StronglySorted R l1
  /\ forall a b, In a l1 -> In b l2 -> R a b.
Proof.
  induction l1 as [|x l1 IH]; simpl; intros Hs.
  - split; [constructor | contradiction].
  - apply StronglySorted_inv in Hs. destruct Hs as [Hs Hall].
    destruct (IH Hs) as [Hs1 Hcross]. split.
    + constructor; [assumption|].
      rewrite Forall_forall in *. intros a Ha. apply Hall.
      apply in_or_app. now left.
    + intros a b [-> | Ha] Hb.
      * rewrite Forall_forall in Hall. apply Hall.
        apply in_or_app. now right.
      * now apply Hcross.
Qed.

(** The first [n] rows of the sorted table, and the rows that are cut
    off: together they are the table; the first are sorted, and no row
    that was cut off goes before a row that was kept. *)
Lemma head_sort_values_desc (n : nat) (l : list A) :
  exists rest,
    Permutation (head n (sort_values_desc col l) ++ rest) l
    /\ StronglySorted (desc col) (head n (sort_values_desc col l))
    /\ forall a b, In a (head n (sort_values_desc col l)) ->
         In b rest -> desc col a b.
Proof.
  exists (skipn n (sort_values_desc col l)).
  pose proof (sort_values_desc_sorted l) as Hs.
  unfold head. rewrite <- (firstn_skipn n (sort_values_desc col l)) in Hs.
  apply StronglySorted_app_inv in Hs. destruct Hs as [Hs Hcross].
  split; [|split; assumption].
  rewrite firstn_skipn. apply sort_values_desc_perm.
Qed.

Lemma head_incl (n : nat) (l : list A) (a : A) :
  In a (head n (sort_values_desc col l)) -> In a l.
Proof.
  intros Ha. apply (Permutation_in _ (sort_values_desc_perm l)).
  rewrite <- (firstn_skipn n (sort_values_desc col l)).
  apply in_or_app. now left.
Qed.

Lemma head_length (n : nat) (l : list A) :
  List.length (head n (sort_values_desc col l))
  = Nat.min n (List.length l).
Proof.
  unfold head. rewrite length_firstn.
  now rewrite (Permutation_length (sort_values_desc_perm l)).
Qed.

End SortFacts.

Lemma StronglySorted_weaken {A : Type} (R R' : A -> A -> Prop) (l : list A) :
  (forall a b, In a l -> In b l -> R a b -> R' a b) ->
  StronglySorted R l -> StronglySorted R' l.
Proof.
  intros Himp Hs. induction Hs as [|x l Hs IH Hall]; constructor.
  - apply IH. intros a b Ha Hb. apply Himp; now right.
  - rewrite Forall_forall in *. intros b Hb.
    apply Himp; [now left | now right | now apply Hall].
Qed.

(** ** Top locations *)

Lemma loc_table_locations (df : DataFrame) :
  map lr_location (loc_table df) = map fst (groupby location df).
Proof. unfold loc_table. rewrite map_map. reflexivity. Qed.

Lemma loc_table_length (df : DataFrame) :
  List.length (loc_table df) = List.length (distinct_locations df).
Proof.
  unfold loc_table, distinct_locations. rewrite length_map.
  apply groupby_length.
Qed.


(** An entry of the location table is the aggregate of the rows of its
    location, of which there is at least one. *)
Lemma loc_table_entry (df : DataFrame) (e : LocationRow) :
  In e (loc_table df) ->
  e = loc_agg (lr_location e, location_group (lr_location e) df)
  /\ location_group (lr_location e) df <> [].
Proof.
  unfold loc_table. intros Hin. apply in_map_iff in Hin.
  destruct Hin as [[k g] [He Hin]]. apply groupby_groups in Hin.
  destruct Hin as [Hg Hne]. rewrite rows_of_location in Hg.
  subst e g. simpl. split; [reflexivity | assumption].
Qed.

Lemma loc_entry_columns (df : DataFrame) (e : LocationRow) :
  In e (loc_table df) ->
  lr_users e = spec_count has_user (location_group (lr_location e) df)
  /\ lr_purchases e
     = spec_sum purchased (location_group (lr_location e) df)
  /\ lr_conversion_rate_pct e
     = times_100 (np_div (inject_Z (lr_purchases e))
                         (inject_Z (lr_users e))).
Proof.
  intros Hin. destruct (loc_table_entry df e Hin) as [He _].
  set (g := location_group (lr_location e) df) in *.
  split; [rewrite He at 1; simpl; apply col_count_spec|].
  split; [rewrite He at 1; simpl; apply col_sum_spec|].
  rewrite He. reflexivity.
Qed.

(** C7 (amended): the location table has one entry per distinct location
    present in the frame, with [users] the number of rows of the location
    that carry a [user_id] (the number of its rows when none lacks it),
    [purchases] the sum of [purchased] over the rows of the location and
    the conversion rate 100 x purchases / users when [users] is not 0 (a
    division by zero, [inf] or [nan], when it is).  The output is that
    table sorted by conversion rate, largest first and [nan] last, and cut
    after the first [n] entries ([n] is 15 in the dashboard): it has
    min(n, number of distinct locations) entries, each a different entry
    of the table, in descending order, and no entry that was cut off goes
    before one that was kept. *)
Theorem location_rollup_top_n (n : nat) (df : DataFrame) :
  loc_df df = loc_df_n 15 df
  /\ List.length (loc_df_n n df)
     = Nat.min n (List.length (distinct_locations df))
  /\ (List.length (loc_df_n n df)
      <= Nat.min n (List.length (distinct_locations df)))%nat
  /\ NoDup (map lr_location (loc_table df))
  /\ (forall v, In v (map lr_location (loc_table df))
                <-> In (Some v) (map location df))
  /\ (forall e, In e (loc_table df) ->
        let g := location_group (lr_location e) df in
        g <> []
        /\ lr_users e = Z.of_nat (List.length (filter has_user g))
        /\ (Forall (fun r => user_id r <> None) g ->
            lr_users e = Z.of_nat (List.length g))
        /\ lr_purchases e = spec_sum purchased g
        /\ (lr_users e <> 0 ->
            num_eq (lr_conversion_rate_pct e)
              (Finite (spec_pct (lr_purchases e) (lr_users e))))
        /\ (lr_users e = 0 -> ~ is_finite (lr_conversion_rate_pct e)))
  /\ NoDup (map lr_location (loc_df_n n df))
  /\ StronglySorted
       (fun a b => lr_conversion_rate_pct b = NaN
                   \/ num_le (lr_conversion_rate_pct b)
                             (lr_conversion_rate_pct a))
       (loc_df_n n df)
  /\ exists rest,
       Permutation (loc_df_n n df ++ rest) (loc_table df)
       /\ forall e e', In e (loc_df_n n df) -> In e' rest ->
            lr_conversion_rate_pct e' = NaN
            \/ num_le (lr_conversion_rate_pct e')
                      (lr_conversion_rate_pct e).
Proof.
  assert (Hnd : NoDup (map lr_location (loc_table df)))
    by (rewrite loc_table_locations; apply groupby_keys_NoDup).
  assert (Hlen : List.length (loc_df_n n df)
                 = Nat.min n (List.length (distinct_locations df))).
  { unfold loc_df_n. now rewrite head_length, loc_table_length. }
  destruct (head_sort_values_desc lr_conversion_rate_pct n (loc_table df))
    as [rest [Hperm [Hsorted Hcut]]].
  fold (loc_df_n n df) in Hperm, Hsorted, Hcut.
  split; [reflexivity|]. split; [exact Hlen|].
  split; [rewrite Hlen; apply Nat.le_refl|].
  split; [exact Hnd|].
  split; [intros v; rewrite loc_table_locations; apply groupby_keys|].
  split.
  { intros e He g.
    destruct (loc_table_entry df e He) as [_ Hne].
    destruct (loc_entry_columns df e He) as [Hu [Hp Hc]].
    fold g in Hne, Hu, Hp.
    split; [exact Hne|]. split; [exact Hu|].
    split.
    { intros Hall. rewrite Hu. apply spec_count_all.
      eapply Forall_impl; [|exact Hall]. intros r. apply has_user_iff. }
    split; [exact Hp|].
    rewrite Hc. split.
    - intros Hnz. now apply pct_value.
    - intros H0 Hfin. apply pct_finite_iff in Hfin. contradiction. }
  split.
  { apply (Permutation_map lr_location) in Hperm.
    apply (Permutation_NoDup (Permutation_sym Hperm)) in Hnd.
    rewrite map_app in Hnd. now apply NoDup_app_remove_r in Hnd. }
  split.
  { eapply StronglySorted_weaken; [|exact Hsorted].
    intros a b _ _. apply desc_before_le. }
  exists rest. split; [exact Hperm|].
  intros e e' He He'. apply desc_before_le. now apply Hcut.
Qed.

(** C7, as it was stated, fails on a location with two rows of which one
    has no [user_id]: its [users] is 1, not its row count. *)
Lemma location_rollup_counterexample :
  exists e, In e (loc_df missing_cells_df)
    /\ lr_users e = 1
    /\ List.length (location_group (lr_location e) missing_cells_df) = 2%nat
    /\ lr_users e
       <> Z.of_nat (List.length
                      (location_group (lr_location e) missing_cells_df)).
Proof.
  eexists. split; [left; reflexivity|]. repeat split. discriminate.
Qed.

(** ** The data model *)

Lemma valid_rows_user_ids (df : DataFrame) :
  Forall valid_row df -> has_user_ids df.
Proof.
  unfold has_user_ids. apply Forall_impl. intros r Hr. apply (vr_user r Hr).
Qed.

Lemma sample_df_valid : Forall valid_row sample_df.
Proof.
  repeat constructor; simpl; try discriminate; try lia.
Qed.

(** ** The aggregations on the sample frames *)

Example kpi_ten_rows :
  total_users (kpi ten_rows) = 10
  /\ num_eq (ctr (kpi ten_rows)) (Finite 40)
  /\ num_eq (conversion_rate (kpi ten_rows)) (Finite 20)
  /\ num_eq (aov (kpi ten_rows)) (Finite 40).
Proof. repeat split. Qed.

Example funnel_sample :
  funnel sample_df =
    [ ("Clicked Ad"%string, 3); ("Viewed Product"%string, 3);
      ("Added to Cart"%string, 2); ("Purchased"%string, 3) ].
Proof. reflexivity. Qed.

Example daily_sample :
  daily (datetime64 0) sample_df = Ok [ (19723, 2); (19725, 1) ].
Proof. reflexivity. Qed.

(** Six hours east of UTC the last event of the sample, one nanosecond
    before midnight UTC, falls on the next day. *)
Example daily_sample_utc_plus_6 :
  daily (datetime64 (6 * 3600000000000)) sample_df
  = Ok [ (19723, 2); (19725, 1); (19726, 0) ].
Proof. reflexivity. Qed.

Example daily_no_datetime :
  daily object_dtype sample_df = AttributeError.
Proof. reflexivity. Qed.

Example campaign_perf_sample :
  map (fun e => (cp_campaign_id e, users e, clicks e, purchases e))
      (campaign_perf sample_df)
  = [ (Str "C1", 2, 2, 2); (Str "C2", 1, 0, 1); (Str "C3", 1, 1, 0) ].
Proof. reflexivity. Qed.

(** Campaign C3 has no purchase and a revenue of 15: the divisor of [AOV]
    is 1 and [AOV] is 15, where the guard of the KPI block would give 0. *)
Example campaign_perf_sample_aov :
  Forall2 num_eq (map AOV (campaign_perf sample_df))
    [ Finite 40; Finite 20; Finite 15 ].
Proof. repeat constructor. Qed.

(** Integer campaign ids are grouped in numeric order. *)
Example campaign_perf_int_ids :
  map cp_campaign_id (campaign_perf int_ids_df) = [ Int 9; Int 10 ].
Proof. reflexivity. Qed.

Example loc_df_sample :
  map (fun e => (lr_location e, lr_users e, lr_purchases e))
      (loc_df sample_df)
  = [ (Str "Dhaka", 2, 2); (Str "Sylhet", 1, 1); (Str "Khulna", 1, 0) ].
Proof. reflexivity. Qed.

Example loc_df_n_sample_cut :
  map lr_location (loc_df_n 2 sample_df) = [ Str "Dhaka"; Str "Sylhet" ].
Proof. reflexivity. Qed.

Example filter_stage_sample :
  map user_id
    (filter_stage [str "C1"; str "C2"] [str "mobile"]
                  [str "Dhaka"; str "Khulna"] sample_df)
  = [ str "u1"; str "u3" ].
Proof. reflexivity. Qed.

(** A row without [campaign_id] is in no group of the campaign table, and
    [count] skips the row without [user_id]. *)
Example campaign_perf_missing_cells :
  map (fun e => (cp_campaign_id e, users e, clicks e, purchases e))
      (campaign_perf missing_cells_df)
  = [ (Str "C1", 1, 1, 1) ].
Proof. reflexivity. Qed.

(** ** Sidebar options and the filter *)

Lemma unique_snoc (l : list (option label)) (x : option label) :
  unique (l ++ [x])
  = if isin x (unique l) then unique l else unique l ++ [x].
Proof. unfold unique. now rewrite fold_left_app. Qed.

Lemma unique_In (x : option label) (l : list (option label)) :
  In x (unique l) <-> In x l.
Proof.
  induction l as [|y l IH] using rev_ind; [reflexivity|].
  rewrite unique_snoc, in_app_iff. simpl.
  destruct (isin y (unique l)) eqn:Hy.
  - apply isin_In in Hy. rewrite IH in *. intuition (subst; auto).
  - rewrite in_app_iff, IH. simpl. tauto.
Qed.

Lemma unique_NoDup (l : list (option label)) : NoDup (unique l).
Proof.
  induction l as [|y l IH] using rev_ind; [constructor|].
  rewrite unique_snoc. destruct (isin y (unique l)) eqn:Hy; [assumption|].
  apply NoDup_rev in IH. rewrite <- (rev_involutive (unique l ++ [y])).
  apply NoDup_rev. rewrite rev_app_distr. simpl. constructor; [|assumption].
  rewrite <- in_rev. intros Hin. apply isin_In in Hin. congruence.
Qed.

Lemma filter_all {A : Type} (f : A -> bool) (l : list A) :
  (forall a, In a l -> f a = true) -> filter f l = l.
Proof.
  induction l as [|a l IH]; simpl; intros Hall; [reflexivity|].
  rewrite (Hall a) by now left. f_equal. apply IH. intros b Hb.
  apply Hall. now right.
Qed.

Lemma filter_stage_In (campaign device loc : list (option label))
  (df : DataFrame) (r : Row) :
  In r (filter_stage campaign device loc df)
  <-> In r df /\ In (campaign_id r) campaign
      /\ In (device_type r) device /\ In (location r) loc.
Proof.
  unfold filter_stage. rewrite filter_In, !andb_true_iff, !isin_In. tauto.
Qed.

(** X1: with the selections the three widgets start with (every distinct
    value of the column, each listed once), the filter keeps the whole
    frame. *)
Theorem filter_stage_defaults (df : DataFrame) :
  filter_stage (campaign_options df) (device_options df)
               (location_options df) df = df
  /\ NoDup (campaign_options df) /\ NoDup (device_options df)
  /\ NoDup (location_options df)
  /\ (forall v, In v (campaign_options df) <-> In v (map campaign_id df))
  /\ (forall v, In v (device_options df) <-> In v (map device_type df))
  /\ (forall v, In v (location_options df) <-> In v (map location df)).
Proof.
  unfold campaign_options, device_options, location_options.
  split; [|repeat split; try apply unique_NoDup; apply unique_In].
  unfold filter_stage. apply filter_all. intros r Hr.
  rewrite !andb_true_iff, !isin_In, !unique_In.
  repeat split; now apply in_map.
Qed.

(** X2: after the filter, the campaign table lists exactly the selected
    campaigns that have a row passing the filter, the location chart shows
    selected locations only, and the row count is not larger than that of
    the unfiltered frame. *)
Theorem filtered_tables_within_selection
  (campaign device loc : list (option label)) (df : DataFrame) :
  (forall v, In v (map cp_campaign_id
                     (campaign_perf (filter_stage campaign device loc df)))
     <-> exists r, In r df /\ campaign_id r = Some v
                   /\ In (Some v) campaign
                   /\ In (device_type r) device /\ In (location r) loc)
  /\ (forall e, In e (loc_df (filter_stage campaign device loc df)) ->
        In (Some (lr_location e)) loc)
  /\ total_users (kpi (filter_stage campaign device loc df))
     <= total_users (kpi df).
Proof.
  split; [|split].
  - intros v. rewrite campaign_perf_ids, groupby_keys, in_map_iff. split.
    + intros [r [Hv Hr]]. apply filter_stage_In in Hr. exists r.
      rewrite <- Hv. tauto.
    + intros [r [Hr [Hv H]]]. exists r. split; [assumption|].
      apply filter_stage_In. rewrite Hv. tauto.
  - intros e He. unfold loc_df, loc_df_n in He. apply head_incl in He.
    assert (Hk : In (lr_location e)
                   (map lr_location
                      (loc_table (filter_stage campaign device loc df))))
      by now apply in_map.
    rewrite loc_table_locations, groupby_keys, in_map_iff in Hk.
    destruct Hk as [r [Hv Hr]]. apply filter_stage_In in Hr.
    rewrite <- Hv. tauto.
  - unfold kpi, len, filter_stage. simpl. apply Nat2Z.inj_le, filter_length_le.
Qed.

Lemma isin_ext (x : option label) (l l' : list (option label)) :
  (forall v, In v l <-> In v l') -> isin x l = isin x l'.
Proof.
  intros Hll. destruct (isin x l') eqn:Hx.
  - apply isin_In. apply Hll. now apply isin_In.
  - apply not_true_is_false. intros Hx'. apply isin_In, Hll, isin_In in Hx'.
    congruence.
Qed.

(** X3: the filter depends on which values are selected, not on the order
    in which they were picked nor on repetitions. *)
Theorem filter_stage_same_selection
  (campaign campaign' device device' loc loc' : list (option label))
  (df : DataFrame)
  (Hc : forall v, In v campaign <-> In v campaign')
  (Hd : forall v, In v device <-> In v device')
  (Hl : forall v, In v loc <-> In v loc') :
  filter_stage campaign device loc df = filter_stage campaign' device' loc' df.
Proof.
  unfold filter_stage. apply filter_ext. intros r.
  now rewrite (isin_ext _ _ _ Hc), (isin_ext _ _ _ Hd), (isin_ext _ _ _ Hl).
Qed.

Lemma filter_stage_same_selection_witness :
  (forall v, In v [str "C1"; str "C2"] <-> In v [str "C2"; str "C1"; str "C2"])
  /\ (forall v, In v [str "mobile"] <-> In v [str "mobile"; str "mobile"])
  /\ (forall v, In v [str "Dhaka"; str "Khulna"]
                <-> In v [str "Khulna"; str "Dhaka"])
  /\ filter_stage [str "C1"; str "C2"] [str "mobile"]
       [str "Dhaka"; str "Khulna"] sample_df
     = filter_stage [str "C2"; str "C1"; str "C2"] [str "mobile"; str "mobile"]
         [str "Khulna"; str "Dhaka"] sample_df.
Proof.
  assert (H1 : forall v, In v [str "C1"; str "C2"]
                         <-> In v [str "C2"; str "C1"; str "C2"])
    by (intros v; simpl; tauto).
  assert (H2 : forall v, In v [str "mobile"]
                         <-> In v [str "mobile"; str "mobile"])
    by (intros v; simpl; tauto).
  assert (H3 : forall v, In v [str "Dhaka"; str "Khulna"]
                         <-> In v [str "Khulna"; str "Dhaka"])
    by (intros v; simpl; tauto).
  split; [exact H1|]. split; [exact H2|]. split; [exact H3|].
  exact (filter_stage_same_selection _ _ _ _ _ _ sample_df H1 H2 H3).
Defined.

(** X4: narrowing a selection gives the same rows as filtering the result
    of the wider selection: rows are only ever removed, in place, and
    applying the same filter twice changes nothing. *)
Theorem filter_stage_narrowing
  (campaign campaign' device device' loc loc' : list (option label))
  (df : DataFrame)
  (Hc : incl campaign campaign') (Hd : incl device device')
  (Hl : incl loc loc') :
  filter_stage campaign device loc (filter_stage campaign' device' loc' df)
  = filter_stage campaign device loc df.
Proof.
  unfold filter_stage. induction df as [|r df IH]; simpl; [reflexivity|].
  destruct (isin (campaign_id r) campaign' && isin (device_type r) device'
            && isin (location r) loc') eqn:Hwide; simpl; rewrite IH.
  - reflexivity.
  - destruct (isin (campaign_id r) campaign && isin (device_type r) device
              && isin (location r) loc) eqn:Hnarrow; [|reflexivity].
    rewrite !andb_true_iff, !isin_In in Hnarrow.
    destruct Hnarrow as [[H1 H2] H3].
    apply Hc, isin_In in H1. apply Hd, isin_In in H2. apply Hl, isin_In in H3.
    rewrite H1, H2, H3 in Hwide. discriminate.
Qed.

Lemma filter_stage_narrowing_witness :
  incl [str "C1"] [str "C1"; str "C2"]
  /\ incl [str "mobile"] [str "mobile"; str "desktop"]
  /\ incl [str "Dhaka"] [str "Dhaka"]
  /\ filter_stage [str "C1"] [str "mobile"] [str "Dhaka"]
       (filter_stage [str "C1"; str "C2"] [str "mobile"; str "desktop"]
          [str "Dhaka"] sample_df)
     = filter_stage [str "C1"] [str "mobile"] [str "Dhaka"] sample_df.
Proof.
  assert (H1 : incl [str "C1"] [str "C1"; str "C2"])
    by (intros v; simpl; tauto).
  assert (H2 : incl [str "mobile"] [str "mobile"; str "desktop"])
    by (intros v; simpl; tauto).
  assert (H3 : incl [str "Dhaka"] [str "Dhaka"])
    by (intros v; simpl; tauto).
  split; [exact H1|]. split; [exact H2|]. split; [exact H3|].
  exact (filter_stage_narrowing _ _ _ _ _ _ sample_df H1 H2 H3).
Defined.

(** ** Totals across the tables *)

Lemma groupby_col_sum {K : Type} `{OrdKeyLaws K} (key : Row -> option K)
  (c : Row -> Z) (df : DataFrame) :
  table_sum (fun kg => col_sum c (snd kg)) (groupby key df)
  = spec_sum c (filter (fun r => present (key r)) df).
Proof.
  rewrite (groupby_additive key (col_sum c) df eq_refl (col_sum_snoc c)).
  apply col_sum_spec.
Qed.

Lemma table_sum_perm {A : Type} (c : A -> Z) (t t' : list A) :
  Permutation t t' -> table_sum c t = table_sum c t'.
Proof.
  unfold table_sum. induction 1; simpl; lia.
Qed.

Lemma loc_df_all (df : DataFrame) :
  (List.length (distinct_locations df) <= top_n)%nat ->
  Permutation (loc_df df) (loc_table df).
Proof.
  intros Hn. unfold loc_df, loc_df_n, head. rewrite firstn_all2.
  - apply sort_values_desc_perm.
  - rewrite (Permutation_length (sort_values_desc_perm _ _)).
    now rewrite loc_table_length.
Qed.

Lemma campaign_purchases_total (df : DataFrame) :
  table_sum purchases (campaign_perf df)
  = spec_sum purchased (filter has_campaign df).
Proof.
  unfold campaign_perf. rewrite table_sum_map. simpl.
  apply (groupby_col_sum campaign_id purchased).
Qed.

Lemma campaign_clicks_total (df : DataFrame) :
  table_sum clicks (campaign_perf df)
  = spec_sum clicked_ad (filter has_campaign df).
Proof.
  unfold campaign_perf. rewrite table_sum_map. simpl.
  apply (groupby_col_sum campaign_id clicked_ad).
Qed.

Lemma location_purchases_total (df : DataFrame) :
  table_sum lr_purchases (loc_table df)
  = spec_sum purchased (filter has_location df).
Proof.
  unfold loc_table. rewrite table_sum_map. simpl.
  apply (groupby_col_sum location purchased).
Qed.

Lemma daily_purchases_total (utc_offset : Z) (df : DataFrame) :
  table_sum snd
    (map (fun kg => (fst kg, col_sum purchased (snd kg)))
         (groupby (date utc_offset) df))
  = spec_sum purchased (filter has_timestamp df).
Proof.
  rewrite table_sum_map. simpl.
  rewrite (groupby_col_sum (date utc_offset) purchased).
  f_equal. apply filter_ext. intros r. unfold date, has_timestamp.
  now destruct (timestamp r).
Qed.

Lemma filter_present_all (p : Row -> bool) (df : DataFrame) :
  Forall (fun r => p r = true) df -> filter p df = df.
Proof.
  intros Hall. apply filter_all. now apply Forall_forall.
Qed.

(** X5: the totals of the tables.  The [purchases] of the campaign table
    are the purchases of the rows that have a [campaign_id], those of the
    location table the purchases of the rows that have a [location], those
    of the daily series the purchases of the rows that have a [timestamp];
    the [clicks] of the campaign table are the clicks of the rows that
    have a [campaign_id].  A table whose key is missing in no row has the
    total of the funnel: Purchased, or Clicked Ad for the clicks. *)
Theorem totals_agree (df : DataFrame) :
  table_sum purchases (campaign_perf df)
    = spec_sum purchased (filter has_campaign df)
  /\ table_sum clicks (campaign_perf df)
    = spec_sum clicked_ad (filter has_campaign df)
  /\ table_sum lr_purchases (loc_table df)
    = spec_sum purchased (filter has_location df)
  /\ (forall utc_offset series,
        daily (datetime64 utc_offset) df = Ok series ->
        table_sum snd series = spec_sum purchased (filter has_timestamp df))
  /\ (Forall (fun r => has_campaign r = true) df ->
      nth_error (funnel df) 3
        = Some ("Purchased"%string, table_sum purchases (campaign_perf df))
      /\ nth_error (funnel df) 0
        = Some ("Clicked Ad"%string, table_sum clicks (campaign_perf df)))
  /\ (Forall (fun r => has_location r = true) df ->
      nth_error (funnel df) 3
        = Some ("Purchased"%string, table_sum lr_purchases (loc_table df))
      /\ ((List.length (distinct_locations df) <= top_n)%nat ->
          nth_error (funnel df) 3
          = Some ("Purchased"%string, table_sum lr_purchases (loc_df df))))
  /\ (Forall (fun r => has_timestamp r = true) df ->
      forall utc_offset series,
        daily (datetime64 utc_offset) df = Ok series ->
        nth_error (funnel df) 3 = Some ("Purchased"%string, table_sum snd series)).
Proof.
  rewrite funnel_items, !col_sum_spec. simpl.
  rewrite campaign_purchases_total, campaign_clicks_total,
          location_purchases_total.
  assert (Hdaily : forall utc_offset series,
            daily (datetime64 utc_offset) df = Ok series ->
            table_sum snd series
            = spec_sum purchased (filter has_timestamp df)).
  { intros utc_offset series Hd. simpl in Hd. inversion Hd; subst.
    apply daily_purchases_total. }
  split; [reflexivity|]. split; [reflexivity|]. split; [reflexivity|].
  split; [exact Hdaily|].
  split; [intros Hall; now rewrite (filter_present_all _ _ Hall)|].
  split.
  - intros Hall. rewrite (filter_present_all _ _ Hall).
    split; [reflexivity|]. intros Hn.
    rewrite (table_sum_perm _ _ _ (loc_df_all df Hn)),
            location_purchases_total.
    now rewrite (filter_present_all _ _ Hall).
  - intros Hall utc_offset series Hd.
    rewrite (Hdaily _ _ Hd). now rewrite (filter_present_all _ _ Hall).
Qed.

Lemma location_users_total (df : DataFrame) :
  table_sum lr_users (loc_table df)
  = spec_count (fun r => has_location r && has_user r) df.
Proof.
  unfold loc_table. rewrite table_sum_map. simpl.
  rewrite (groupby_additive location col_count df eq_refl col_count_snoc).
  rewrite col_count_spec. unfold spec_count. now rewrite filter_and.
Qed.

(** X6: [count] counts cells, not rows.  The [users] of the location table
    add up to the number of rows that carry both a [location] and a
    [user_id]; that is at most [total_users], and equal to it exactly when
    no row lacks either cell.  In an entry of the campaign table, [users]
    is at most the number of rows of the campaign. *)
Theorem users_count_rows_with_user_id (df : DataFrame) :
  table_sum lr_users (loc_table df)
    = Z.of_nat (List.length
                  (filter (fun r => has_location r && has_user r) df))
  /\ table_sum lr_users (loc_table df) <= total_users (kpi df)
  /\ (table_sum lr_users (loc_table df) = total_users (kpi df)
      <-> Forall (fun r => location r <> None /\ user_id r <> None) df)
  /\ (forall e, In e (campaign_perf df) ->
        0 <= users e
           <= Z.of_nat (List.length
                          (campaign_group (cp_campaign_id e) df))).
Proof.
  rewrite location_users_total. unfold spec_count, kpi, len. simpl.
  pose proof (filter_length_le (fun r => has_location r && has_user r) df)
    as Hle.
  split; [reflexivity|]. split; [lia|]. split.
  { rewrite Nat2Z.inj_iff, filter_length_all. split; apply Forall_impl;
      intros r; unfold has_location, has_user;
      destruct (location r), (user_id r); simpl;
      intuition congruence. }
  intros e He. destruct (campaign_entry_columns df e He) as [Hu _].
  rewrite Hu. unfold spec_count.
  pose proof (filter_length_le has_user
                (campaign_group (cp_campaign_id e) df)). lia.
Qed.

(** ** Division by zero in the campaign table *)

(** X7: in the campaign table, [AOV] is a finite number for every frame
    (its divisor is never 0), whereas [ctr_pct] and [conversion_rate_pct]
    are finite exactly when [users] is not 0; [users] is 0 exactly when no
    row of the campaign carries a [user_id]. *)
Theorem campaign_ratio_finiteness (df : DataFrame) :
  forall e, In e (campaign_perf df) ->
    is_finite (AOV e)
    /\ (is_finite (ctr_pct e) <-> users e <> 0)
    /\ (is_finite (conversion_rate_pct e) <-> users e <> 0)
    /\ (users e = 0 <->
        Forall (fun r => user_id r = None)
               (campaign_group (cp_campaign_id e) df)).
Proof.
  intros e Hin.
  destruct (campaign_entry_columns df e Hin)
    as [Hu [_ [_ [_ [Hctr [Hcr Haov]]]]]].
  split; [now rewrite Haov|].
  split; [rewrite Hctr; apply pct_finite_iff|].
  split; [rewrite Hcr; apply pct_finite_iff|].
  rewrite Hu, spec_count_zero. split; apply Forall_impl; intros r;
    unfold has_user; destruct (user_id r); congruence.
Qed.

Lemma campaign_ratio_finiteness_witness :
  In sample_entry (campaign_perf sample_df)
  /\ is_finite (AOV sample_entry)
  /\ (is_finite (ctr_pct sample_entry) <-> users sample_entry <> 0)
  /\ (is_finite (conversion_rate_pct sample_entry)
      <-> users sample_entry <> 0)
  /\ (users sample_entry = 0 <->
      Forall (fun r => user_id r = None)
             (campaign_group (cp_campaign_id sample_entry) sample_df)).
Proof.
  assert (Hin : In sample_entry (campaign_perf sample_df))
    by (left; reflexivity).
  split; [exact Hin|].
  exact (campaign_ratio_finiteness sample_df sample_entry Hin).
Defined.

(** ** Ranges of the figures on well-formed rows *)

Lemma pct_bounds (s n : Z) :
  0 <= s <= n -> n <> 0 ->
  (0 <= inject_Z s / inject_Z n * 100 /\ inject_Z s / inject_Z n * 100 <= 100)%Q.
Proof.
  intros Hs Hn.
  assert (Hpos : (0 < inject_Z n)%Q).
  { change 0%Q with (inject_Z 0). rewrite <- Zlt_Qlt. lia. }
  assert (H0 : (0 <= inject_Z s / inject_Z n)%Q).
  { apply Qle_shift_div_l; [assumption|]. rewrite Qmult_0_l.
    change 0%Q with (inject_Z 0). rewrite <- Zle_Qle. lia. }
  assert (H1 : (inject_Z s / inject_Z n <= 1)%Q).
  { apply Qle_shift_div_r; [assumption|]. rewrite Qmult_1_l.
    rewrite <- Zle_Qle. lia. }
  split.
  - apply Qmult_le_0_compat; [assumption | discriminate].
  - apply Qle_trans with (1 * 100)%Q.
    + apply Qmult_le_compat_r; [assumption | discriminate].
    + discriminate.
Qed.

Lemma spec_sum_indicator (c : Row -> Z) (df : DataFrame) :
  Forall (fun r => 0 <= c r <= 1) df ->
  0 <= spec_sum c df <= Z.of_nat (List.length df).
Proof.
  induction 1 as [|r df Hr _ IH]; cbn [List.length spec_sum];
    rewrite ?Nat2Z.inj_succ; lia.
Qed.

Lemma col_sum_indicator (c : Row -> Z) (df : DataFrame) :
  Forall (fun r => 0 <= c r <= 1) df -> 0 <= col_sum c df <= len df.
Proof. rewrite col_sum_spec. apply spec_sum_indicator. Qed.

Lemma col_count_pos_bounds (c : Row -> Z) (df : DataFrame) :
  0 <= col_count_pos c df <= len df.
Proof.
  rewrite col_count_pos_spec. unfold spec_count, len.
  pose proof (filter_length_le (fun r => 0 <? c r) df). lia.
Qed.

Lemma spec_sumq_nonneg (c : Row -> Q) (df : DataFrame) :
  Forall (fun r => (0 <= c r)%Q) df -> (0 <= spec_sumq c df)%Q.
Proof.
  induction 1 as [|r df Hr _ IH]; simpl; [discriminate|].
  change 0%Q with (0 + 0)%Q. now apply Qplus_le_compat.
Qed.

Lemma col_sumq_nonneg (c : Row -> Q) (df : DataFrame) :
  Forall (fun r => (0 <= c r)%Q) df -> (0 <= col_sumq c df)%Q.
Proof. intros Hall. rewrite col_sumq_spec. now apply spec_sumq_nonneg. Qed.

Lemma quotient_nonneg (a : Q) (n : Z) :
  (0 <= a)%Q -> 0 < n -> (0 <= a / inject_Z n)%Q.
Proof.
  intros Ha Hn. apply Qle_shift_div_l.
  - change 0%Q with (inject_Z 0). rewrite <- Zlt_Qlt. lia.
  - now rewrite Qmult_0_l.
Qed.

Lemma valid_rows_filter (f : Row -> bool) (df : DataFrame) :
  Forall valid_row df -> Forall valid_row (filter f df).
Proof.
  rewrite !Forall_forall. intros Hall r Hin. apply filter_In in Hin.
  now apply Hall.
Qed.

Lemma valid_rows_clicked (df : DataFrame) :
  Forall valid_row df -> Forall (fun r => 0 <= clicked_ad r <= 1) df.
Proof. apply Forall_impl. intros r Hr. apply (vr_clicked r Hr). Qed.

Lemma valid_rows_purchased (df : DataFrame) :
  Forall valid_row df -> Forall (fun r => 0 <= purchased r <= 1) df.
Proof. apply Forall_impl. intros r Hr. apply (vr_purchased r Hr). Qed.

Lemma valid_rows_amount (df : DataFrame) :
  Forall valid_row df -> Forall (fun r => (0 <= purchase_amount r)%Q) df.
Proof. apply Forall_impl. intros r Hr. apply (vr_amount r Hr). Qed.

(** X8: on rows that respect the data model (indicators 0 or 1, amounts
    not negative), the two KPI rates lie between 0 and 100 and the average
    order value is not negative. *)
Theorem kpi_ranges (df : DataFrame) (Hv : Forall valid_row df) :
  num_le (Finite 0) (ctr (kpi df)) /\ num_le (ctr (kpi df)) (Finite 100)
  /\ num_le (Finite 0) (conversion_rate (kpi df))
  /\ num_le (conversion_rate (kpi df)) (Finite 100)
  /\ num_le (Finite 0) (aov (kpi df)).
Proof.
  pose proof (col_sum_indicator _ _ (valid_rows_clicked df Hv)) as Hc.
  pose proof (col_sum_indicator _ _ (valid_rows_purchased df Hv)) as Hp.
  pose proof (col_sumq_nonneg _ _ (valid_rows_amount df Hv)) as Hr.
  unfold kpi, truthy. simpl.
  assert (Haov : num_le (Finite 0)
            (if negb (col_sum purchased df =? 0)
             then np_div (col_sumq purchase_amount df)
                         (inject_Z (col_sum purchased df))
             else Finite 0)).
  { destruct (col_sum purchased df =? 0) eqn:Hz; simpl; [discriminate|].
    apply Z.eqb_neq in Hz. rewrite np_div_int_nonzero by assumption. simpl.
    apply quotient_nonneg; [assumption | lia]. }
  destruct (len df =? 0) eqn:Hn; simpl.
  - repeat split; try discriminate. exact Haov.
  - apply Z.eqb_neq in Hn. rewrite !np_div_int_nonzero by assumption. simpl.
    destruct (pct_bounds _ _ Hc Hn) as [Hc0 Hc1].
    destruct (pct_bounds _ _ Hp Hn) as [Hp0 Hp1].
    repeat split; assumption.
Qed.

Lemma kpi_ranges_witness :
  Forall valid_row sample_df
  /\ num_le (Finite 0) (ctr (kpi sample_df))
  /\ num_le (ctr (kpi sample_df)) (Finite 100)
  /\ num_le (Finite 0) (conversion_rate (kpi sample_df))
  /\ num_le (conversion_rate (kpi sample_df)) (Finite 100)
  /\ num_le (Finite 0) (aov (kpi sample_df)).
Proof.
  assert (Hv : Forall valid_row sample_df)
    by (repeat constructor; simpl; try discriminate; try lia).
  split; [exact Hv|]. exact (kpi_ranges sample_df Hv).
Defined.

(** X9: no funnel stage counts more than [total_users] nor less than 0,
    on rows whose indicators are 0 or 1. *)
Theorem funnel_counts_within_total (df : DataFrame)
  (Hv : Forall valid_row df) :
  forall stage count, In (stage, count) (funnel df) ->
    0 <= count <= total_users (kpi df).
Proof.
  pose proof (col_sum_indicator _ _ (valid_rows_clicked df Hv)) as Hc.
  pose proof (col_sum_indicator _ _ (valid_rows_purchased df Hv)) as Hp.
  pose proof (col_count_pos_bounds products_viewed df) as Hpv.
  pose proof (col_count_pos_bounds added_to_cart df) as Hac.
  intros stage count Hin. rewrite funnel_items in Hin.
  unfold kpi. simpl total_users.
  simpl in Hin. destruct Hin as [H | [H | [H | [H | []]]]];
    inversion H; subst; assumption.
Qed.

Lemma funnel_counts_within_total_witness :
  Forall valid_row sample_df
  /\ forall stage count, In (stage, count) (funnel sample_df) ->
       0 <= count <= total_users (kpi sample_df).
Proof.
  assert (Hv : Forall valid_row sample_df)
    by (repeat constructor; simpl; try discriminate; try lia).
  split; [exact Hv|]. exact (funnel_counts_within_total sample_df Hv).
Defined.

(** X10: on rows that respect the data model, every entry of the campaign
    table has at least one user, no more clicks and no more purchases than
    users, both rates between 0 and 100, and an [AOV] that is not
    negative. *)
Theorem campaign_entry_ranges (df : DataFrame) (Hv : Forall valid_row df) :
  forall e, In e (campaign_perf df) ->
    1 <= users e
    /\ 0 <= clicks e <= users e
    /\ 0 <= purchases e <= users e
    /\ num_le (Finite 0) (ctr_pct e) /\ num_le (ctr_pct e) (Finite 100)
    /\ num_le (Finite 0) (conversion_rate_pct e)
    /\ num_le (conversion_rate_pct e) (Finite 100)
    /\ num_le (Finite 0) (AOV e).
Proof.
  intros e Hin.
  destruct (campaign_perf_entry df e Hin) as [_ Hne].
  destruct (campaign_entry_columns df e Hin)
    as [Hu [Hcl [Hpu [Hre [Hctr [Hcr Haov]]]]]].
  set (g := campaign_group (cp_campaign_id e) df) in *.
  assert (Hg : Forall valid_row g) by now apply valid_rows_filter.
  assert (Husers : users e = Z.of_nat (List.length g)).
  { rewrite Hu. apply spec_count_all.
    eapply Forall_impl; [|exact Hg]. intros r Hr.
    apply has_user_iff, (vr_user r Hr). }
  assert (Hpos : 1 <= users e).
  { rewrite Husers. destruct g; [contradiction | simpl List.length; lia]. }
  pose proof (spec_sum_indicator _ _ (valid_rows_clicked g Hg)) as Hc.
  pose proof (spec_sum_indicator _ _ (valid_rows_purchased g Hg)) as Hp.
  pose proof (spec_sumq_nonneg _ _ (valid_rows_amount g Hg)) as Hr.
  rewrite <- Hcl, <- Husers in Hc. rewrite <- Hpu, <- Husers in Hp.
  rewrite <- Hre in Hr.
  assert (Hnz : users e <> 0) by lia.
  rewrite np_div_int_nonzero in Hctr, Hcr by assumption.
  rewrite Hctr, Hcr, Haov. simpl.
  destruct (pct_bounds _ _ Hc Hnz) as [Hc0 Hc1].
  destruct (pct_bounds _ _ Hp Hnz) as [Hp0 Hp1].
  repeat split; try assumption; try lia.
  apply quotient_nonneg; [assumption|].
  rewrite replace_0_1_max by lia. lia.
Qed.

Lemma campaign_entry_ranges_witness :
  Forall valid_row sample_df
  /\ forall e, In e (campaign_perf sample_df) ->
       1 <= users e
       /\ 0 <= clicks e <= users e
       /\ 0 <= purchases e <= users e
       /\ num_le (Finite 0) (ctr_pct e) /\ num_le (ctr_pct e) (Finite 100)
       /\ num_le (Finite 0) (conversion_rate_pct e)
       /\ num_le (conversion_rate_pct e) (Finite 100)
       /\ num_le (Finite 0) (AOV e).
Proof.
  assert (Hv : Forall valid_row sample_df)
    by (repeat constructor; simpl; try discriminate; try lia).
  split; [exact Hv|]. exact (campaign_entry_ranges sample_df Hv).
Defined.

(** ** Order of the rows *)

Lemma spec_sum_perm (c : Row -> Z) (df df' : list Row) :
  Permutation df df' -> spec_sum c df = spec_sum c df'.
Proof. induction 1; simpl; lia. Qed.

Lemma col_sum_perm (c : Row -> Z) (df df' : DataFrame) :
  Permutation df df' -> col_sum c df = col_sum c df'.
Proof. rewrite !col_sum_spec. apply spec_sum_perm. Qed.

Lemma filter_perm {A : Type} (f : A -> bool) (l l' : list A) :
  Permutation l l' -> Permutation (filter f l) (filter f l').
Proof.
  induction 1 as [|x l l' _ IH|x y l|l l' l'' _ IH1 _ IH2]; simpl.
  - constructor.
  - destruct (f x); [now constructor | assumption].
  - destruct (f x), (f y); try apply Permutation_refl. apply perm_swap.
  - now apply Permutation_trans with (filter f l').
Qed.

Lemma len_perm {A : Type} (l l' : list A) :
  Permutation l l' -> len l = len l'.
Proof. intros Hp. unfold len. now rewrite (Permutation_length Hp). Qed.

Lemma spec_count_perm (p : Row -> bool) (df df' : list Row) :
  Permutation df df' -> spec_count p df = spec_count p df'.
Proof.
  intros Hp. unfold spec_count.
  now rewrite (Permutation_length (filter_perm p _ _ Hp)).
Qed.

Lemma col_count_perm (df df' : DataFrame) :
  Permutation df df' -> col_count df = col_count df'.
Proof. rewrite !col_count_spec. apply spec_count_perm. Qed.

Lemma col_count_pos_perm (c : Row -> Z) (df df' : DataFrame) :
  Permutation df df' -> col_count_pos c df = col_count_pos c df'.
Proof. rewrite !col_count_pos_spec. apply spec_count_perm. Qed.

Section GroupByOrder.
Context {K : Type} `{OrdKeyLaws K}.
Variable key : Row -> option K.

Lemma groupby_as_map (df : DataFrame) :
  groupby key df
  = map (fun k => (k, rows_of key k df)) (map fst (groupby key df)).
Proof.
  rewrite map_map. rewrite <- (map_id (groupby key df)) at 1.
  apply map_ext_in. intros [k g] Hin. simpl.
  now destruct (groupby_groups key k g df Hin) as [-> _].
Qed.

Lemma klt_head_below (k : K) (g : DataFrame) (rest : list (K * DataFrame))
  (k' : K) :
  Forall (klt (k, g)) rest -> In k' (map fst rest) -> kcmp k k' = Lt.
Proof.
  rewrite Forall_forall. intros Hall Hin. apply in_map_iff in Hin.
  destruct Hin as [[k0 g0] [Hk Hin]]. simpl in Hk. subst k0.
  exact (Hall _ Hin).
Qed.

Lemma kcmp_irrefl (k : K) : kcmp k k <> Lt.
Proof.
  assert (Hrefl : kcmp k k = Eq) by now apply kcmp_eq. congruence.
Qed.

(** Two key-sorted lists of groups with the same keys list them in the
    same order. *)
Lemma sorted_keys_unique (gs1 gs2 : list (K * DataFrame)) :
  StronglySorted klt gs1 -> StronglySorted klt gs2 ->
  (forall k, In k (map fst gs1) <-> In k (map fst gs2)) ->
  map fst gs1 = map fst gs2.
Proof.
  intros Hs1. revert gs2.
  induction Hs1 as [|[k1 g1] r1 Hs1 IH Hall1]; intros gs2 Hs2 Hiff.
  - destruct gs2 as [|[k2 g2] r2]; [reflexivity|].
    exfalso. apply (Hiff k2). now left.
  - destruct gs2 as [|[k2 g2] r2].
    + exfalso. apply (Hiff k1). now left.
    + apply StronglySorted_inv in Hs2. destruct Hs2 as [Hs2 Hall2].
      simpl in *.
      assert (Heq : k1 = k2).
      { destruct (proj1 (Hiff k1) (or_introl eq_refl)) as [H12 | H12];
          [now symmetry|].
        destruct (proj2 (Hiff k2) (or_introl eq_refl)) as [H21 | H21];
          [assumption|].
        exfalso. apply (kcmp_irrefl k1).
        apply kcmp_trans with k2.
        - exact (klt_head_below _ _ _ _ Hall1 H21).
        - exact (klt_head_below _ _ _ _ Hall2 H12). }
      subst k2. f_equal. apply IH; [assumption|].
      intros k. split; intros Hk.
      * destruct (proj1 (Hiff k) (or_intror Hk)) as [Hk1 | Hk2];
          [|assumption].
        exfalso. apply (kcmp_irrefl k1). rewrite Hk1 at 2.
        exact (klt_head_below _ _ _ _ Hall1 Hk).
      * destruct (proj2 (Hiff k) (or_intror Hk)) as [Hk1 | Hk2];
          [|assumption].
        exfalso. apply (kcmp_irrefl k1). rewrite Hk1 at 2.
        exact (klt_head_below _ _ _ _ Hall2 Hk).
Qed.

(** An aggregate that does not look at the order of the rows of a group
    gives the same table for the same rows in another order. *)
Lemma groupby_perm_map {B : Type} (agg : K * DataFrame -> B)
  (df df' : DataFrame) :
  (forall k g g', Permutation g g' -> agg (k, g) = agg (k, g')) ->
  Permutation df df' ->
  map agg (groupby key df) = map agg (groupby key df').
Proof.
  intros Hagg Hp.
  assert (Hkeys : map fst (groupby key df) = map fst (groupby key df')).
  { apply sorted_keys_unique; try apply groupby_sorted.
    intros k. rewrite !groupby_keys. split; apply Permutation_in.
    - now apply Permutation_map.
    - now apply Permutation_map, Permutation_sym. }
  rewrite (groupby_as_map df), (groupby_as_map df'), <- Hkeys, !map_map.
  apply map_ext. intros k. apply Hagg. unfold rows_of. now apply filter_perm.
Qed.

End GroupByOrder.

(** X11: the figures that are computed from counts and integer sums do
    not depend on the order of the rows: with the same rows in another
    order, the row count and the two rates of the KPI block, the funnel,
    the daily series, the location chart and, in the campaign table, the
    users, clicks, purchases and the two rates are the same. *)
Theorem row_order_independent (df df' : DataFrame)
  (Hp : Permutation df df') :
  total_users (kpi df) = total_users (kpi df')
  /\ ctr (kpi df) = ctr (kpi df')
  /\ conversion_rate (kpi df) = conversion_rate (kpi df')
  /\ funnel df = funnel df'
  /\ (forall dtype, daily dtype df = daily dtype df')
  /\ map (fun e => (cp_campaign_id e, users e, clicks e, purchases e,
                    ctr_pct e, conversion_rate_pct e)) (campaign_perf df)
     = map (fun e => (cp_campaign_id e, users e, clicks e, purchases e,
                      ctr_pct e, conversion_rate_pct e)) (campaign_perf df')
  /\ loc_df df = loc_df df'.
Proof.
  assert (Hlen : len df = len df') by now apply len_perm.
  assert (Hcl : col_sum clicked_ad df = col_sum clicked_ad df')
    by now apply col_sum_perm.
  assert (Hpu : col_sum purchased df = col_sum purchased df')
    by now apply col_sum_perm.
  split; [exact Hlen|].
  split; [unfold kpi; simpl; now rewrite Hlen, Hcl|].
  split; [unfold kpi; simpl; now rewrite Hlen, Hpu|].
  split.
  { rewrite !funnel_items, Hcl, Hpu.
    now rewrite (col_count_pos_perm products_viewed df df' Hp),
                (col_count_pos_perm added_to_cart df df' Hp). }
  split.
  { intros [utc_offset|]; [|reflexivity]. unfold daily. f_equal.
    apply groupby_perm_map; [|assumption].
    intros k g g' Hg. simpl. f_equal. now apply col_sum_perm. }
  split.
  { unfold campaign_perf. rewrite !map_map.
    apply groupby_perm_map; [|assumption].
    intros k g g' Hg. simpl.
    now rewrite (col_count_perm g g' Hg), (col_sum_perm clicked_ad g g' Hg),
                (col_sum_perm purchased g g' Hg). }
  unfold loc_df, loc_df_n, loc_table. f_equal. f_equal.
  apply groupby_perm_map; [|assumption].
  intros k g g' Hg. unfold loc_agg. simpl.
  now rewrite (col_count_perm g g' Hg), (col_sum_perm purchased g g' Hg).
Qed.

Lemma row_order_independent_witness :
  Permutation sample_df (rev sample_df)
  /\ total_users (kpi sample_df) = total_users (kpi (rev sample_df))
  /\ ctr (kpi sample_df) = ctr (kpi (rev sample_df))
  /\ conversion_rate (kpi sample_df) = conversion_rate (kpi (rev sample_df))
  /\ funnel sample_df = funnel (rev sample_df)
  /\ (forall dtype, daily dtype sample_df = daily dtype (rev sample_df))
  /\ map (fun e => (cp_campaign_id e, users e, clicks e, purchases e,
                    ctr_pct e, conversion_rate_pct e))
         (campaign_perf sample_df)
     = map (fun e => (cp_campaign_id e, users e, clicks e, purchases e,
                      ctr_pct e, conversion_rate_pct e))
           (campaign_perf (rev sample_df))
  /\ loc_df sample_df = loc_df (rev sample_df).
Proof.
  split; [apply Permutation_rev|].
  apply (row_order_independent sample_df (rev sample_df)).
  apply Permutation_rev.
Defined.

(** ** Lollipop charts *)

Section SortByFacts.
Context {A : Type}.
Variable before : A -> A -> bool.
Hypothesis before_total : forall a b, before a b = false -> before b a = true.
Hypothesis before_trans :
  forall a b c, before a b = true -> before b c = true -> before a c = true.

Lemma insert_by_perm (x : A) (l : list A) :
  Permutation (insert_by before x l) (x :: l).
Proof.
  induction l as [|y l IH]; simpl; [apply Permutation_refl|].
  destruct (before x y); [apply Permutation_refl|].
  rewrite IH. apply perm_swap.
Qed.

Lemma sort_by_perm (l : list A) : Permutation (sort_by before l) l.
Proof.
  induction l as [|x l IH]; simpl; [constructor|].
  rewrite insert_by_perm. now constructor.
Qed.

Lemma insert_by_sorted (x : A) (l : list A) :
  Sorted (fun a b => before a b = true) l ->
  Sorted (fun a b => before a b = true) (insert_by before x l).
Proof.
  induction l as [|y l IH]; simpl; intros Hs.
  - repeat constructor.
  - destruct (before x y) eqn:Hxy.
    + constructor; [assumption|]. constructor. exact Hxy.
    + inversion Hs as [|a l' Hl Hhd]; subst.
      constructor; [now apply IH|].
      apply before_total in Hxy.
      destruct l as [|z l]; simpl; [now constructor|].
      inversion Hhd; subst.
      destruct (before x z); now constructor.
Qed.

Lemma sort_by_sorted (l : list A) :
  StronglySorted (fun a b => before a b = true) (sort_by before l).
Proof.
  apply Sorted_StronglySorted.
  - intros a b c. apply before_trans.
  - induction l as [|x l IH]; simpl; [constructor|].
    now apply insert_by_sorted.
Qed.

End SortByFacts.

Lemma asc_before_total (x y : num) :
  asc_before x y = false -> asc_before y x = true.
Proof.
  destruct x as [a| | |], y as [b| | |]; simpl;
    try discriminate; try reflexivity.
  intros Hab.
  apply (num_leb_total (Finite a) (Finite b)); [discriminate | discriminate |].
  exact Hab.
Qed.

Lemma asc_before_trans (x y z : num) :
  asc_before x y = true -> asc_before y z = true -> asc_before x z = true.
Proof.
  destruct x as [a| | |], y as [b| | |], z as [c| | |]; simpl;
    try discriminate; try reflexivity.
  rewrite !Qle_bool_iff. apply Qle_trans.
Qed.

Lemma asc_before_le (x y : num) :
  asc_before x y = true -> y = NaN \/ num_le x y.
Proof.
  destruct x as [a| | |], y as [b| | |]; simpl;
    try discriminate; auto.
  rewrite Qle_bool_iff. auto.
Qed.

Lemma sort_values_asc_perm {A : Type} (col : A -> num) (l : list A) :
  Permutation (sort_values_asc col l) l.
Proof. apply sort_by_perm. Qed.

Lemma sort_values_asc_sorted {A : Type} (col : A -> num) (l : list A) :
  StronglySorted (fun x y => y = NaN \/ num_le x y)
                 (map col (sort_values_asc col l)).
Proof.
  unfold sort_values_asc.
  pose proof (sort_by_sorted (fun a b => asc_before (col a) (col b))
                (fun a b => asc_before_total (col a) (col b))
                (fun a b c => asc_before_trans (col a) (col b) (col c)) l)
    as Hs.
  induction Hs as [|a s Hs IH Hall]; simpl; constructor; [assumption|].
  rewrite Forall_map. eapply Forall_impl; [|exact Hall].
  intros b. apply asc_before_le.
Qed.

Lemma combine_map {A B C : Type} (f : A -> B) (g : A -> C) (l : list A) :
  combine (map f l) (map g l) = map (fun a => (f a, g a)) l.
Proof. induction l as [|a l IH]; simpl; [reflexivity | now rewrite IH]. Qed.

Lemma numeric_column_not_id (metric : string) (col : CampaignRow -> num) :
  numeric_column metric = Some col -> String.eqb metric "campaign_id" = false.
Proof.
  intros Hcol. apply not_true_is_false. intros Heq.
  apply String.eqb_eq in Heq. subst metric. discriminate.
Qed.

(** X12: for a metric that is a numeric column of the table, the chart is
    drawn: its two traces (markers with labels, and the line) carry the
    same points; the points are the (campaign, value) pairs of the table,
    each row exactly once, in ascending order of the value with [nan]
    last; there is one label per point, the formatted value; the x axis is
    titled with the metric. *)
Theorem lollipop_chart_points (fmt : num -> string) (df : list CampaignRow)
  (metric title color : string) (col : CampaignRow -> num)
  (Hcol : numeric_column metric = Some col) :
  exists fig markers lines,
    lollipop_chart fmt df metric title color = Ok fig
    /\ fig_data fig = [markers; lines]
    /\ sc_x lines = sc_x markers /\ sc_y lines = sc_y markers
    /\ Permutation (combine (sc_y markers) (sc_x markers))
                   (map (fun e => (cp_campaign_id e, col e)) df)
    /\ StronglySorted (fun x y => y = NaN \/ num_le x y) (sc_x markers)
    /\ sc_text markers = Some (map fmt (sc_x markers))
    /\ sc_text lines = None
    /\ ly_xaxis_title (fig_layout fig) = metric
    /\ ly_title (fig_layout fig) = title.
Proof.
  unfold lollipop_chart.
  rewrite (numeric_column_not_id metric col Hcol), Hcol.
  eexists. eexists. eexists. split; [reflexivity|]. simpl.
  split; [reflexivity|]. split; [reflexivity|]. split; [reflexivity|].
  simpl. split.
  { rewrite combine_map. apply Permutation_map, sort_values_asc_perm. }
  split; [apply sort_values_asc_sorted|].
  split; [now rewrite map_map|]. auto.
Qed.

Lemma lollipop_chart_points_witness :
  numeric_column "users" = Some (fun e => Finite (inject_Z (users e)))
  /\ exists fig markers lines,
       lollipop_chart (fun _ => ""%string) (campaign_perf sample_df)
         "users" "Number of Users by Campaign" "#EF553B" = Ok fig
       /\ fig_data fig = [markers; lines]
       /\ sc_x lines = sc_x markers /\ sc_y lines = sc_y markers
       /\ Permutation (combine (sc_y markers) (sc_x markers))
            (map (fun e => (cp_campaign_id e, Finite (inject_Z (users e))))
                 (campaign_perf sample_df))
       /\ StronglySorted (fun x y => y = NaN \/ num_le x y) (sc_x markers)
       /\ sc_text markers = Some (map (fun _ => ""%string) (sc_x markers))
       /\ sc_text lines = None
       /\ ly_xaxis_title (fig_layout fig) = "users"%string
       /\ ly_title (fig_layout fig) = "Number of Users by Campaign"%string.
Proof.
  split; [reflexivity|].
  apply (lollipop_chart_points (fun _ => ""%string) (campaign_perf sample_df)
           "users" "Number of Users by Campaign" "#EF553B"
           (fun e => Finite (inject_Z (users e)))).
  reflexivity.
Defined.

(** On the column of the campaign ids the chart depends on what the ids
    are: integer ids are formatted, string ids are refused. *)
Example lollipop_chart_int_ids :
  exists fig, lollipop_chart (fun _ => ""%string) (campaign_perf int_ids_df)
                "campaign_id" "Campaigns" "#636EFA" = Ok fig.
Proof. eexists. reflexivity. Qed.

Example lollipop_chart_string_ids :
  lollipop_chart (fun _ => ""%string) (campaign_perf sample_df)
    "campaign_id" "Campaigns" "#636EFA" = ValueError.
Proof. reflexivity. Qed.

Example lollipop_chart_no_column :
  lollipop_chart (fun _ => ""%string) (campaign_perf sample_df)
    "ctr" "Campaigns" "#636EFA" = KeyError.
Proof. reflexivity. Qed.

(** X14: the four highlight charts of the dashboard are drawn for every
    frame, also the empty one: each metric they name is a column of the
    campaign table, and each chart has exactly one point per campaign of
    the table. *)
Theorem highlight_charts_drawn (fmt : num -> string) (df : DataFrame) :
  List.length (highlight_charts fmt df) = 4%nat
  /\ forall chart, In chart (highlight_charts fmt df) ->
       exists fig markers lines,
         chart = Ok fig /\ fig_data fig = [markers; lines]
         /\ Permutation (sc_y markers)
                        (map cp_campaign_id (campaign_perf df))
         /\ NoDup (sc_y markers)
         /\ sc_y lines = sc_y markers.
Proof.
  split; [reflexivity|].
  assert (Hnd : NoDup (map cp_campaign_id (campaign_perf df)))
    by (rewrite campaign_perf_ids; apply groupby_keys_NoDup).
  assert (Hone : forall metric title color col,
            numeric_column metric = Some col ->
            exists fig markers lines,
              lollipop_chart fmt (campaign_perf df) metric title color = Ok fig
              /\ fig_data fig = [markers; lines]
              /\ Permutation (sc_y markers)
                             (map cp_campaign_id (campaign_perf df))
              /\ NoDup (sc_y markers)
              /\ sc_y lines = sc_y markers).
  { intros metric title color col Hcol. unfold lollipop_chart.
    rewrite (numeric_column_not_id metric col Hcol), Hcol.
    eexists. eexists. eexists. split; [reflexivity|]. simpl.
    split; [reflexivity|].
    assert (Hperm : Permutation
              (map cp_campaign_id (sort_values_asc col (campaign_perf df)))
              (map cp_campaign_id (campaign_perf df)))
      by apply Permutation_map, sort_values_asc_perm.
    split; [exact Hperm|]. split; [|reflexivity].
    apply (Permutation_NoDup (Permutation_sym Hperm) Hnd). }
  intros chart Hin. unfold highlight_charts in Hin. simpl in Hin.
  destruct Hin as [H | [H | [H | [H | []]]]]; subst chart;
    eapply Hone; reflexivity.
Qed.

(** ** The best location *)




